(** * audio-vis: the Butterworth filter chain of [gen.py] and [main.py]

    A shallow embedding of [butter_filter], [apply_filters] and
    [analyze_audio], and what holds of them.

    Store.  Python objects live in a store: a NumPy array is a
    reference into a finite map of sample sequences, so that aliasing
    ("the same array is returned") and freshness ("a new array is
    produced") can be told apart.  Exceptions are values of a result
    type.  Every call that leaves the repository (SciPy's [butter] and
    [lfilter], librosa's loader and feature routines) is recorded in a
    call log kept next to the store; the log is an observation of the
    run, not a part of the program's state.

    Numbers.  Cutoffs and sample rates are Python [int]s, here [Z].  The
    float expressions [sr / 2], [0.5 * fs] and [cutoff / nyquist] are
    carried out on rationals.  That is the code's behaviour for
    integers of magnitude at most 2^53 ([float_safe]): there the
    conversion to binary64 and the halving are exact, Python compares
    an [int] with a [float] exactly, and the rounding of the one
    division cannot move a quotient across 0, across 1 or across the
    other edge of a band.  Beyond that range the code rounds, or raises
    [OverflowError], and the embedding does not follow it: every
    theorem whose truth depends on a float operation takes
    [float_safe] of the numbers involved as a hypothesis.  Sample
    arithmetic itself stays abstract: no algebraic law is assumed of
    it, as none holds of floating point.

    Layout.  The embedding comes first (values, collaborators, monad,
    SciPy, librosa, [gen.py], [main.py]), then the vocabulary of the
    statements and a small concrete interpretation, then the lemmas and
    the theorems C1 to C10, the further properties X1 to X10 of the
    chain and of the pipeline, and last their instances on concrete
    runs. *)

From Stdlib Require Import ZArith QArith List String Lia.
From stdpp Require Import base option gmap.
Import ListNotations.

Local Open Scope Z_scope.

(** ** Python values and exceptions *)

Definition loc := positive.

Inductive exn :=
| ZeroDivisionError
| TypeError
| InvalidCutoffError      (* SciPy reports it as a ValueError *)
| DecodeUnavailableError  (* raised by the decoder, never by the chain *)
| LibraryError            (* any failure inside a feature routine *)
| DanglingReference.      (* a reference outside the store; no Python
                             program can build one *)

Inductive result (A : Type) :=
| Ok (a : A)
| Raise (e : exn).
Arguments Ok {A} a.
Arguments Raise {A} e.

(** The [btype] strings the chain passes to [butter_filter]. *)
Inductive btype := high | low | band.

(** The [cutoff] argument of [butter_filter]: an [int], or a list of
    them for a band. *)
Inductive pyval :=
| PyInt (c : Z)
| PyList (cs : list Z).

(** The normalised critical frequencies handed to the designer. *)
Inductive critical :=
| Wn1 (w : Q)
| WnList (ws : list Q).

Inductive feature :=
| Waveform | Spectrogram | MFCC | ZCR | SpectralCentroid
| SpectralBandwidth | RMS | SpectralContrast | SpectralRolloff
| Tempo | Tempogram.

(** ** Numeric comparisons on the rationals that stand for floats *)

Definition Qltb (x y : Q) : bool := negb (Qle_bool y x).

(** Python's [x / y], on the rationals that stand for the floats.  For
    operands that come from [float_safe] integers the quotient the
    code computes is this one rounded to binary64, and division by a
    zero float raises [ZeroDivisionError]; the rounding and the
    [OverflowError] of larger operands are not modelled. *)
Definition truediv (x y : Q) : result Q :=
  if Qeq_bool y 0 then Raise ZeroDivisionError else Ok (x / y)%Q.

(** A list comprehension [[f x for x in xs]] whose body may raise. *)
Fixpoint comprehension {A B} (f : A -> result B) (xs : list A)
  : result (list B) :=
  match xs with
  | [] => Ok []
  | x :: xs' =>
      match f x with
      | Raise e => Raise e
      | Ok b =>
          match comprehension f xs' with
          | Raise e => Raise e
          | Ok bs => Ok (b :: bs)
          end
      end
  end.

(** ** The collaborators *)

(** Sample arithmetic and the coefficient computation of an accepted
    Butterworth design. *)
Class SciPy := {
  sample : Type;
  s_zero : sample;
  s_add : sample -> sample -> sample;
  s_sub : sample -> sample -> sample;
  s_mul : sample -> sample -> sample;
  butter_ba : Z -> critical -> btype -> list sample * list sample
}.

(** The decoder and the feature routines with their plots. *)
Class Librosa `{SciPy} := {
  image : Type;
  basename : string -> string;
  load : string -> result (list sample * Z);
  onset_strength : list sample -> Z -> result (list sample);
  render :
    feature -> option string -> list sample -> option Z -> result image
}.

(** ** Store, call log and the monad of the embedding *)

Section Embedding.
Context `{SP : SciPy}.

Inductive event :=
| CallButter (N : Z) (Wn : critical) (bt : btype)
| CallLfilter (b a : list sample) (data out : loc)
| CallLoad (file : string) (out : loc)
| CallOnset (y : loc) (sr : Z) (out : loc)
| CallFeature (f : feature) (y : loc) (sr : option Z).

Record world := World {
  heap : gmap loc (list sample);
  calls : list event
}.

Definition M (A : Type) : Type := world -> result A * world.

Definition ret {A} (a : A) : M A := fun w => (Ok a, w).

Definition raise {A} (e : exn) : M A := fun w => (Raise e, w).

Definition bind {A B} (m : M A) (k : A -> M B) : M B :=
  fun w =>
    match m w with
    | (Ok a, w') => k a w'
    | (Raise e, w') => (Raise e, w')
    end.

Definition lift {A} (r : result A) : M A := fun w => (r, w).

Definition record (ev : event) : M unit :=
  fun w => (Ok tt, World (heap w) (calls w ++ [ev])).

Definition deref (l : loc) : M (list sample) :=
  fun w =>
    match heap w !! l with
    | Some xs => (Ok xs, w)
    | None => (Raise DanglingReference, w)
    end.

(** A new array: a reference the store does not hold yet. *)
Definition alloc (xs : list sample) : M loc :=
  fun w =>
    let l := fresh (dom (heap w)) in
    (Ok l, World (<[l := xs]> (heap w)) (calls w)).

End Embedding.

Notation "x <- m ;; k" := (bind m (fun x => k))
  (at level 100, m at next level, right associativity).
Notation "m ;;; k" := (bind m (fun _ => k))
  (at level 100, right associativity).

(** ** SciPy *)

Section SciPyModel.
Context `{SP : SciPy}.

(** Modelled from the spec: the test SciPy's [butter], which is not
    part of the repository, applies to one normalised cutoff.  Section
    4.1: a cutoff at most 0 or at least 1 is refused. *)
Definition in_open_unit (w : Q) : bool := Qltb 0 w && Qltb w 1.

(** Modelled from the spec: the designs SciPy's [butter] accepts.
    Section 4.1: every normalised cutoff lies strictly between 0 and 1,
    and the low edge of a band lies below its high edge.  A critical
    frequency of the wrong shape for the filter type is refused
    alike. *)
Definition accepts (Wn : critical) (bt : btype) : bool :=
  match bt, Wn with
  | high, Wn1 w | low, Wn1 w => in_open_unit w
  | band, WnList [lo; hi] =>
      in_open_unit lo && in_open_unit hi && Qltb lo hi
  | _, _ => false
  end.

(** Modelled from the spec: SciPy's [butter], which is not part of the
    repository.  Section 4.1: a pure function that fails with
    [InvalidCutoffError] on a design it does not accept; an accepted
    design yields the coefficients [butter_ba].  The call is logged
    when it is made. *)
Definition butter (N : Z) (Wn : critical) (bt : btype)
  : M (list sample * list sample) :=
  record (CallButter N Wn bt) ;;;
  if accepts Wn bt then ret (butter_ba N Wn bt)
  else raise InvalidCutoffError.

(** Modelled from the spec: the weighted sum of a window, part of
    SciPy's [lfilter], which is not part of the repository.  Samples
    before the start of the buffer count as absent. *)
Fixpoint dot (c v : list sample) : sample :=
  match c, v with
  | ci :: c', vi :: v' => s_add (s_mul ci vi) (dot c' v')
  | _, _ => s_zero
  end.

(** Modelled from the spec: the recursion of SciPy's [lfilter], which
    is not part of the repository.  Section 4.2: each output sample is
    a weighted sum of a fixed window of current and past input samples
    (feed-forward coefficients [b]) minus a weighted sum of past output
    samples (feedback coefficients [a]), in one pass from start to
    end. *)
Fixpoint direct_form (b a xpast ypast x : list sample) : list sample :=
  match x with
  | [] => []
  | xn :: x' =>
      let xwin := xn :: xpast in
      let yn := s_sub (dot b xwin) (dot (tail a) ypast) in
      yn :: direct_form b a xwin (yn :: ypast) x'
  end.

(** Modelled from the spec: SciPy's [lfilter], which is not part of
    the repository.  Section 4.2: the output is a new buffer and the
    input is not written. *)
Definition lfilter (b a : list sample) (data : loc) : M loc :=
  x <- deref data ;;
  out <- alloc (direct_form b a [] [] x) ;;
  record (CallLfilter b a data out) ;;;
  ret out.

End SciPyModel.

(** ** librosa and the plots *)

Section LibrosaModel.
Context `{SP : SciPy} `{LB : !Librosa}.

(** [librosa.load]: the decoded samples arrive in a new array. *)
Definition librosa_load (file : string) : M (loc * Z) :=
  decoded <- lift (load file) ;;
  y <- alloc (fst decoded) ;;
  record (CallLoad file y) ;;;
  ret (y, snd decoded).

(** [librosa.onset.onset_strength]: the envelope is a new array. *)
Definition librosa_onset_strength (y : loc) (sr : Z) : M loc :=
  ys <- deref y ;;
  env <- lift (onset_strength ys sr) ;;
  out <- alloc env ;;
  record (CallOnset y sr out) ;;;
  ret out.

(** One feature computed from the array [y] and drawn to an image.
    The image, the array [plt_to_numpy] builds from the figure, is the
    value returned; the store of the embedding holds sample buffers
    only and does not record it. *)
Definition plot (f : feature) (filename : option string) (y : loc)
    (sr : option Z) : M image :=
  ys <- deref y ;;
  record (CallFeature f y sr) ;;;
  lift (render f filename ys sr).

End LibrosaModel.

(** ** gen.py *)

Module Gen.
Section Gen.
Context `{SP : SciPy}.

Definition FILTER_UPPER_BOUND : Z := 20000.
Definition FILTER_LOWER_BOUND : Z := 0.

Definition butter_filter (data : loc) (cutoff : pyval) (fs : Z)
    (bt : btype) (order : Z) : M loc :=
  let nyquist := ((1 # 2) * inject_Z fs)%Q in
  normal_cutoff <-
    match bt with
    | low | high =>
        match cutoff with
        | PyInt c => w <- lift (truediv (inject_Z c) nyquist) ;; ret (Wn1 w)
        | PyList _ => raise TypeError
        end
    | band =>
        match cutoff with
        | PyList cs =>
            ws <- lift (comprehension
                          (fun c => truediv (inject_Z c) nyquist) cs) ;;
            ret (WnList ws)
        | PyInt _ => raise TypeError
        end
    end ;;
  ba <- butter order normal_cutoff bt ;;
  y <- lfilter (fst ba) (snd ba) data ;;
  ret y.

Definition apply_filters (y : loc) (sr : Z)
    (highpass_cutoff lowpass_cutoff bandpass_low bandpass_high : Z) : M loc :=
  y <- (if highpass_cutoff >? FILTER_LOWER_BOUND
        then butter_filter y (PyInt highpass_cutoff) sr high 5
        else ret y) ;;
  y <- (if (lowpass_cutoff >? FILTER_LOWER_BOUND)
           && Qltb (inject_Z lowpass_cutoff) (inject_Z sr / 2)
        then butter_filter y (PyInt lowpass_cutoff) sr low 5
        else ret y) ;;
  y <- (if (bandpass_low >? FILTER_LOWER_BOUND)
           && Qltb (inject_Z bandpass_high) (inject_Z sr / 2)
        then butter_filter y (PyList [bandpass_low; bandpass_high]) sr band 5
        else ret y) ;;
  ret y.

(** The nested plotting closures: each computes its feature of the
    array it is given with librosa and draws it. *)
Context `{LB : !Librosa}.

Definition plot_waveform fn y (sr : Z) := plot Waveform fn y (Some sr).
Definition plot_spectrogram fn y (sr : Z) := plot Spectrogram fn y (Some sr).
Definition plot_mfcc fn y (sr : Z) := plot MFCC fn y (Some sr).
Definition plot_zcr fn y := plot ZCR fn y None.
Definition plot_spectral_centroid fn y (sr : Z) :=
  plot SpectralCentroid fn y (Some sr).
Definition plot_spectral_bandwidth fn y (sr : Z) :=
  plot SpectralBandwidth fn y (Some sr).
Definition plot_rms fn y := plot RMS fn y None.
Definition plot_spectral_contrast fn y (sr : Z) :=
  plot SpectralContrast fn y (Some sr).
Definition plot_spectral_rolloff fn y (sr : Z) :=
  plot SpectralRolloff fn y (Some sr).
Definition plot_tempo fn onset_env (sr : Z) :=
  plot Tempo fn onset_env (Some sr).
Definition plot_tempogram fn onset_env (sr : Z) :=
  plot Tempogram fn onset_env (Some sr).

Definition analyze_audio (file : string)
    (highpass_cutoff lowpass_cutoff bandpass_low bandpass_high : Z)
  : M (list image) :=
  let filename := Some (basename file) in
  y_sr <- librosa_load file ;;
  let sr := snd y_sr in
  y <- apply_filters (fst y_sr) sr
         highpass_cutoff lowpass_cutoff bandpass_low bandpass_high ;;
  waveform <- plot_waveform filename y sr ;;
  spectrogram <- plot_spectrogram filename y sr ;;
  mfcc <- plot_mfcc filename y sr ;;
  zcr <- plot_zcr filename y ;;
  spectral_centroid <- plot_spectral_centroid filename y sr ;;
  spectral_bandwidth <- plot_spectral_bandwidth filename y sr ;;
  rms <- plot_rms filename y ;;
  spectral_contrast <- plot_spectral_contrast filename y sr ;;
  spectral_rolloff <- plot_spectral_rolloff filename y sr ;;
  onset_env <- librosa_onset_strength y sr ;;
  tempo <- plot_tempo filename onset_env sr ;;
  tempogram <- plot_tempogram filename onset_env sr ;;
  ret [waveform; spectrogram; mfcc; zcr; spectral_centroid;
       spectral_bandwidth; rms; spectral_contrast; spectral_rolloff;
       tempo; tempogram].

End Gen.
End Gen.

(** ** main.py *)

Module Main.
Section Main.
Context `{SP : SciPy}.

Definition FILTER_UPPER_BOUND : Z := 20000.
Definition FILTER_LOWER_BOUND : Z := 0.

Definition butter_filter (data : loc) (cutoff : pyval) (fs : Z)
    (bt : btype) (order : Z) : M loc :=
  let nyquist := ((1 # 2) * inject_Z fs)%Q in
  normal_cutoff <-
    match bt with
    | low | high =>
        match cutoff with
        | PyInt c => w <- lift (truediv (inject_Z c) nyquist) ;; ret (Wn1 w)
        | PyList _ => raise TypeError
        end
    | band =>
        match cutoff with
        | PyList cs =>
            ws <- lift (comprehension
                          (fun c => truediv (inject_Z c) nyquist) cs) ;;
            ret (WnList ws)
        | PyInt _ => raise TypeError
        end
    end ;;
  ba <- butter order normal_cutoff bt ;;
  y <- lfilter (fst ba) (snd ba) data ;;
  ret y.

Definition apply_filters (y : loc) (sr : Z)
    (highpass_cutoff lowpass_cutoff bandpass_low bandpass_high : Z) : M loc :=
  y <- (if highpass_cutoff >? FILTER_LOWER_BOUND
        then butter_filter y (PyInt highpass_cutoff) sr high 5
        else ret y) ;;
  y <- (if (lowpass_cutoff >? FILTER_LOWER_BOUND)
           && Qltb (inject_Z lowpass_cutoff) (inject_Z sr / 2)
        then butter_filter y (PyInt lowpass_cutoff) sr low 5
        else ret y) ;;
  y <- (if (bandpass_low >? FILTER_LOWER_BOUND)
           && Qltb (inject_Z bandpass_high) (inject_Z sr / 2)
        then butter_filter y (PyList [bandpass_low; bandpass_high]) sr band 5
        else ret y) ;;
  ret y.

(** The nested plotting closures: each computes its feature of the
    array it is given with librosa and draws it. *)
Context `{LB : !Librosa}.

Definition plot_waveform fn y (sr : Z) := plot Waveform fn y (Some sr).
Definition plot_spectrogram fn y (sr : Z) := plot Spectrogram fn y (Some sr).
Definition plot_mfcc fn y (sr : Z) := plot MFCC fn y (Some sr).
Definition plot_zcr fn y := plot ZCR fn y None.
Definition plot_spectral_centroid fn y (sr : Z) :=
  plot SpectralCentroid fn y (Some sr).
Definition plot_spectral_bandwidth fn y (sr : Z) :=
  plot SpectralBandwidth fn y (Some sr).
Definition plot_rms fn y := plot RMS fn y None.
Definition plot_spectral_contrast fn y (sr : Z) :=
  plot SpectralContrast fn y (Some sr).
Definition plot_spectral_rolloff fn y (sr : Z) :=
  plot SpectralRolloff fn y (Some sr).

Definition analyze_audio (file : string)
    (highpass_cutoff lowpass_cutoff bandpass_low bandpass_high : Z)
  : M (list image) :=
  let filename := @None string in
  y_sr <- librosa_load file ;;
  let sr := snd y_sr in
  y <- apply_filters (fst y_sr) sr
         highpass_cutoff lowpass_cutoff bandpass_low bandpass_high ;;
  waveform <- plot_waveform filename y sr ;;
  spectrogram <- plot_spectrogram filename y sr ;;
  mfcc <- plot_mfcc filename y sr ;;
  zcr <- plot_zcr filename y ;;
  spectral_centroid <- plot_spectral_centroid filename y sr ;;
  spectral_bandwidth <- plot_spectral_bandwidth filename y sr ;;
  rms <- plot_rms filename y ;;
  spectral_contrast <- plot_spectral_contrast filename y sr ;;
  spectral_rolloff <- plot_spectral_rolloff filename y sr ;;
  ret [waveform; spectrogram; mfcc; zcr; spectral_centroid;
       spectral_bandwidth; rms; spectral_contrast; spectral_rolloff].

End Main.
End Main.

(** * The vocabulary of the statements *)

Section Vocabulary.
Context `{SP : SciPy}.

(** The cutoff [c] over the Nyquist frequency of the rate [fs], as
    [butter_filter] computes it. *)
Definition norm (c fs : Z) : Q := (inject_Z c / ((1 # 2) * inject_Z fs))%Q.

(** The store only gained arrays: every array of [w] is in [w'] with
    the samples it had. *)
Definition grows (w w' : world) : Prop :=
  forall l xs, heap w !! l = Some xs -> heap w' !! l = Some xs.

(** The critical frequencies [butter_filter] derives from [cutoff] at a
    rate other than zero. *)
Definition Wn_of (cutoff : pyval) (fs : Z) : critical :=
  match cutoff with
  | PyInt c => Wn1 (norm c fs)
  | PyList cs => WnList (map (fun c => norm c fs) cs)
  end.

(** An [int] for a high-pass or low-pass filter, a list for a band. *)
Definition well_shaped (cutoff : pyval) (bt : btype) : bool :=
  match bt, cutoff with
  | band, PyList _ | low, PyInt _ | high, PyInt _ => true
  | _, _ => false
  end.

(** The first half of [butter_filter], which touches no state: the
    cutoffs divided by the Nyquist frequency. *)
Definition normalise (cutoff : pyval) (fs : Z) (bt : btype)
  : result critical :=
  let nyquist := ((1 # 2) * inject_Z fs)%Q in
  match bt, cutoff with
  | low, PyInt c | high, PyInt c =>
      match truediv (inject_Z c) nyquist with
      | Ok q => Ok (Wn1 q)
      | Raise e => Raise e
      end
  | band, PyList cs =>
      match comprehension (fun c => truediv (inject_Z c) nyquist) cs with
      | Ok ws => Ok (WnList ws)
      | Raise e => Raise e
      end
  | _, _ => Raise TypeError
  end.

(** The second half: one call of the designer and, if it accepts, one
    application to the array [data]. *)
Definition stage_outcome (data : loc) (Wn : critical) (bt : btype)
    (order : Z) (w : world) : result loc * world :=
  let w1 := World (heap w) (calls w ++ [CallButter order Wn bt]) in
  if accepts Wn bt then
    match heap w !! data with
    | Some x =>
        let ba := butter_ba order Wn bt in
        let out := fresh (dom (heap w)) in
        (Ok out,
         World (<[out := direct_form (fst ba) (snd ba) [] [] x]> (heap w))
               (calls w1 ++ [CallLfilter (fst ba) (snd ba) data out]))
    | None => (Raise DanglingReference, w1)
    end
  else (Raise InvalidCutoffError, w1).

(** Follows the wording of the specification: at most three stages, in
    the order high-pass, low-pass, band-pass, each behind its guard. *)
Definition planned_stages (sr hp lp bl bh : Z) : list (btype * pyval) :=
  (if 0 <? hp then [(high, PyInt hp)] else []) ++
  (if (0 <? lp) && (2 * lp <? sr) then [(low, PyInt lp)] else []) ++
  (if (0 <? bl) && (2 * bh <? sr) then [(band, PyList [bl; bh])] else []).

(** Strictly sequential: each stage filters the output of the one
    before, and a failure ends the run. *)
Fixpoint run_stages (stages : list (btype * pyval)) (sr : Z) (y : loc)
  : M loc :=
  match stages with
  | [] => ret y
  | (bt, cutoff) :: rest =>
      y' <- Gen.butter_filter y cutoff sr bt 5 ;;
      run_stages rest sr y'
  end.

(** An application recorded in the log whose input and output, read in
    the world [w], both hold [n] samples. *)
Definition same_length_call (w : world) (n : nat) (ev : event) : Prop :=
  match ev with
  | CallLfilter _ _ i o =>
      exists xi xo,
        heap w !! i = Some xi /\ heap w !! o = Some xo /\
        length xi = n /\ length xo = n
  | _ => True
  end.

(** A stage whose cutoff has the shape its filter type needs. *)
Definition shaped (s : btype * pyval) : Prop :=
  well_shaped (snd s) (fst s) = true.

(** A well-shaped stage whose design is accepted at the rate [sr]. *)
Definition accepted (sr : Z) (s : btype * pyval) : Prop :=
  shaped s /\ accepts (Wn_of (snd s) sr) (fst s) = true.

(** A logged call that a run of [stages] may make: a design of order 5
    for one of the stages, with that stage's cutoffs divided by
    Nyquist, or an application. *)
Definition call_of_stages (sr : Z) (stages : list (btype * pyval))
    (ev : event) : Prop :=
  match ev with
  | CallButter N Wn bt =>
      N = 5 /\ exists c, In (bt, c) stages /\ Wn = Wn_of c sr
  | CallLfilter _ _ _ _ => True
  | _ => False
  end.

(** The value the sliders send for "off": [FILTER_LOWER_BOUND - 1]. *)
Definition disabled : Z := Gen.FILTER_LOWER_BOUND - 1.

(** The outcome of two runs one after the other: both fail alike, or
    both return arrays, distinct ones, that hold the same samples. *)
Definition same_outcome (w2 : world) (r1 r2 : result loc) : Prop :=
  match r1, r2 with
  | Ok o1, Ok o2 =>
      o1 <> o2 /\ is_Some (heap w2 !! o1) /\ heap w2 !! o1 = heap w2 !! o2
  | Raise e1, Raise e2 => e1 = e2
  | _, _ => False
  end.

(** What the chain's guards let reach the designer. *)
Definition within_guard (ev : event) : Prop :=
  match ev with
  | CallButter _ (Wn1 q) low => (0 < q)%Q /\ (q < 1)%Q
  | CallButter _ (WnList [lo; hi]) band => (0 < lo)%Q /\ (hi < 1)%Q
  | _ => True
  end.

(** A computation that only adds: arrays to the store, calls to the
    log. *)
Definition monotone {A} (m : M A) : Prop :=
  forall w r w',
    m w = (r, w') ->
    grows w w' /\ exists new, calls w' = calls w ++ new.

(** The integers on which the float operations of the code are exact.
    Up to 2^53 in magnitude a Python [int] converts to binary64 without
    rounding and without [OverflowError], [sr / 2] and [0.5 * fs] are
    exact, and the one rounded quotient [cutoff / nyquist] keeps its
    order with 0, with 1 and with the other edge of a band.  Only there
    do the rationals of the embedding stand for the floats of the code;
    every statement whose truth depends on a float operation carries
    this bound. *)
Definition float_safe (z : Z) : Prop := Z.abs z <= 2 ^ 53.

(** The sample rate and the four cutoffs of a call of the chain. *)
Definition floats_safe (sr hp lp bl bh : Z) : Prop :=
  float_safe sr /\ float_safe hp /\ float_safe lp /\
  float_safe bl /\ float_safe bh.

(** The [cutoff] argument of [butter_filter]. *)
Definition cutoff_safe (cutoff : pyval) : Prop :=
  match cutoff with
  | PyInt c => float_safe c
  | PyList cs => Forall float_safe cs
  end.

End Vocabulary.

(** * The vocabulary of the further statements *)

Section Batteries.
Context `{SP : SciPy} `{LB : !Librosa}.

(** What the eleven plots of [gen.py] yield for the samples [ys] at the
    rate [sr] with the onset envelope [env], in the order of the tuple
    [analyze_audio] returns. *)
Definition gen_battery (fn : option string) (ys : list sample) (sr : Z)
    (env : list sample) : list (result image) :=
  [render Waveform fn ys (Some sr); render Spectrogram fn ys (Some sr);
   render MFCC fn ys (Some sr); render ZCR fn ys None;
   render SpectralCentroid fn ys (Some sr);
   render SpectralBandwidth fn ys (Some sr); render RMS fn ys None;
   render SpectralContrast fn ys (Some sr);
   render SpectralRolloff fn ys (Some sr);
   render Tempo fn env (Some sr); render Tempogram fn env (Some sr)].

(** The librosa calls [gen.py] logs for them, on the array [y] and the
    envelope array [o]. *)
Definition gen_feature_calls (y : loc) (sr : Z) (o : loc) : list event :=
  [CallFeature Waveform y (Some sr); CallFeature Spectrogram y (Some sr);
   CallFeature MFCC y (Some sr); CallFeature ZCR y None;
   CallFeature SpectralCentroid y (Some sr);
   CallFeature SpectralBandwidth y (Some sr); CallFeature RMS y None;
   CallFeature SpectralContrast y (Some sr);
   CallFeature SpectralRolloff y (Some sr);
   CallOnset y sr o;
   CallFeature Tempo o (Some sr); CallFeature Tempogram o (Some sr)].

(** The nine plots of [main.py], which draws no tempo. *)
Definition main_battery (ys : list sample) (sr : Z) : list (result image) :=
  [render Waveform None ys (Some sr); render Spectrogram None ys (Some sr);
   render MFCC None ys (Some sr); render ZCR None ys None;
   render SpectralCentroid None ys (Some sr);
   render SpectralBandwidth None ys (Some sr); render RMS None ys None;
   render SpectralContrast None ys (Some sr);
   render SpectralRolloff None ys (Some sr)].

Definition main_feature_calls (y : loc) (sr : Z) : list event :=
  [CallFeature Waveform y (Some sr); CallFeature Spectrogram y (Some sr);
   CallFeature MFCC y (Some sr); CallFeature ZCR y None;
   CallFeature SpectralCentroid y (Some sr);
   CallFeature SpectralBandwidth y (Some sr); CallFeature RMS y None;
   CallFeature SpectralContrast y (Some sr);
   CallFeature SpectralRolloff y (Some sr)].

(** The world right after [librosa.load] has returned [ys]. *)
Definition loaded (file : string) (ys : list sample) (w : world) : world :=
  World (<[fresh (dom (heap w)) := ys]> (heap w))
        (calls w ++ [CallLoad file (fresh (dom (heap w)))]).

(** A logged call of the designer or of the filter. *)
Definition scipy_call (ev : event) : Prop :=
  match ev with
  | CallButter _ _ _ | CallLfilter _ _ _ _ => True
  | _ => False
  end.

End Batteries.

(** ** A concrete interpretation, to run the embedding on examples *)

Module Toy.

(** Integer samples; every accepted design yields the two-tap averager
    [b = [1; 1]], [a = [1]]. *)
Definition scipy : SciPy :=
  {| sample := Z; s_zero := 0; s_add := Z.add; s_sub := Z.sub;
     s_mul := Z.mul; butter_ba := fun _ _ _ => ([1; 1], [1]) |}.

(** A decoder that hands over the samples [ys] at the rate [sr]; the
    feature routines report how many samples they were given. *)
Definition librosa (ys : list Z) (sr : Z) : @Librosa scipy :=
  @Build_Librosa scipy (feature * nat)%type (fun file => file)
    (fun _ => Ok (ys, sr)) (fun ys _ => Ok ys)
    (fun f _ ys _ => Ok (f, length ys)).

(** The same decoder with routines that refuse a signal without
    samples, as librosa's do. *)
Definition careful_librosa (ys : list Z) (sr : Z) : @Librosa scipy :=
  @Build_Librosa scipy (feature * nat)%type (fun file => file)
    (fun _ => Ok (ys, sr))
    (fun ys _ => match ys with [] => Raise LibraryError | _ => Ok ys end)
    (fun f _ ys _ =>
       match ys with
       | [] => Raise LibraryError
       | _ => Ok (f, length ys)
       end).

Definition empty_world : @world scipy := World ∅ [].

(** One array, at reference 1, holding three samples. *)
Definition one_buffer : @world scipy :=
  World {[ 1%positive := [3; 4; 5] ]} [].

End Toy.

(** * Lemmas *)

Section Arith.

Ltac q_compare :=
  unfold in_open_unit, norm, Qltb, Qle_bool, Qeq_bool, Qdiv, Qmult, Qinv,
    inject_Z;
  cbn; rewrite ?Z.mul_1_l, ?Z.mul_1_r, ?Pos.mul_1_l, ?Pos.mul_1_r; cbn;
  repeat match goal with
         | |- context [Z.leb ?a ?b] => destruct (Z.leb_spec a b)
         | |- context [Z.ltb ?a ?b] => destruct (Z.ltb_spec a b)
         end;
  cbn; solve [reflexivity | lia | nia].

Lemma nyquist_nonzero fs :
  fs <> 0 -> Qeq_bool ((1 # 2) * inject_Z fs) 0 = false.
Proof. intros Hfs. destruct fs; [congruence | reflexivity | reflexivity]. Qed.

Lemma half_rate_guard c sr :
  Qltb (inject_Z c) (inject_Z sr / 2) = (2 * c <? sr).
Proof. q_compare. Qed.

Lemma norm_in_open_unit c fs :
  0 < fs -> in_open_unit (norm c fs) = (0 <? c) && (2 * c <? fs).
Proof. intros Hfs. destruct fs as [|p|p]; try lia. q_compare. Qed.

Lemma norm_positive c fs : 0 < fs -> Qltb 0 (norm c fs) = (0 <? c).
Proof. intros Hfs. destruct fs as [|p|p]; try lia. q_compare. Qed.

Lemma norm_below_one c fs : 0 < fs -> Qltb (norm c fs) 1 = (2 * c <? fs).
Proof. intros Hfs. destruct fs as [|p|p]; try lia. q_compare. Qed.

Lemma norm_lt a b fs : 0 < fs -> Qltb (norm a fs) (norm b fs) = (a <? b).
Proof. intros Hfs. destruct fs as [|p|p]; try lia. q_compare. Qed.
End Arith.

Section Stages.
Context `{SP : SciPy}.

Lemma grows_refl w : grows w w.
Proof. intros l xs H; exact H. Qed.

Lemma grows_trans w1 w2 w3 : grows w1 w2 -> grows w2 w3 -> grows w1 w3.
Proof. intros H12 H23 l xs H. apply H23, H12, H. Qed.

Lemma fresh_unused (h : gmap loc (list sample)) : h !! fresh (dom h) = None.
Proof. apply not_elem_of_dom, is_fresh. Qed.

Lemma grows_insert_fresh w xs cs :
  grows w (World (<[fresh (dom (heap w)) := xs]> (heap w)) cs).
Proof.
  intros l ys H; cbn.
  rewrite lookup_insert_ne; [exact H|].
  intros <-. rewrite fresh_unused in H. discriminate.
Qed.

Lemma direct_form_length b a xp yp x :
  length (direct_form b a xp yp x) = length x.
Proof.
  revert xp yp. induction x as [|xn x IH]; intros xp yp; cbn.
  - reflexivity.
  - now rewrite IH.
Qed.

Lemma comprehension_total {A B} (f : A -> B) (xs : list A) :
  comprehension (fun x => Ok (f x)) xs = Ok (map f xs).
Proof. induction xs as [|x xs IH]; cbn; [reflexivity | now rewrite IH]. Qed.

Lemma comprehension_raises cs q e :
  comprehension (fun c => truediv (inject_Z c) q) cs = Raise e ->
  e = ZeroDivisionError.
Proof.
  induction cs as [|c cs IH]; cbn; [discriminate|].
  unfold truediv at 1. destruct (Qeq_bool q 0); [congruence|].
  destruct (comprehension _ cs); [discriminate|].
  intros [= <-]. now apply IH.
Qed.

Lemma butter_filter_halves data cutoff fs bt order w :
  Gen.butter_filter data cutoff fs bt order w
  = match normalise cutoff fs bt with
    | Ok Wn => stage_outcome data Wn bt order w
    | Raise e => (Raise e, w)
    end.
Proof.
  unfold Gen.butter_filter, normalise, stage_outcome, butter, lfilter, bind,
    lift, ret, raise, record, deref, alloc.
  destruct bt, cutoff as [c|cs]; simpl; try reflexivity.
  1,2: destruct (truediv _ _) as [q|e]; [|reflexivity]; simpl;
       destruct (in_open_unit q); [|reflexivity]; simpl;
       destruct (heap w !! data); reflexivity.
  destruct (comprehension _ cs) as [ws|e]; [|reflexivity]. simpl.
  destruct (match ws with [] => _ | _ => _ end); [|reflexivity].
  simpl. destruct (heap w !! data); reflexivity.
Qed.

Lemma normalise_raises cutoff fs bt e :
  normalise cutoff fs bt = Raise e ->
  e = ZeroDivisionError \/ e = TypeError.
Proof.
  unfold normalise. destruct bt, cutoff as [c|cs]; try (intros [= <-]; tauto).
  1,2: unfold truediv; destruct (Qeq_bool _ 0); [|discriminate];
       intros [= <-]; tauto.
  destruct (comprehension _ cs) eqn:E; [discriminate|].
  intros [= <-]. left. eapply comprehension_raises, E.
Qed.

Lemma normalise_ok cutoff fs bt :
  fs <> 0 -> well_shaped cutoff bt = true ->
  normalise cutoff fs bt = Ok (Wn_of cutoff fs).
Proof.
  intros Hfs Hshape. unfold normalise, truediv.
  rewrite (nyquist_nonzero fs Hfs).
  destruct bt, cutoff as [c|cs]; try discriminate; try reflexivity.
  now rewrite (comprehension_total (fun c => norm c fs)).
Qed.

Lemma butter_filter_run data cutoff fs bt order w :
  fs <> 0 -> well_shaped cutoff bt = true ->
  Gen.butter_filter data cutoff fs bt order w
  = stage_outcome data (Wn_of cutoff fs) bt order w.
Proof.
  intros Hfs Hshape. now rewrite butter_filter_halves, normalise_ok.
Qed.

(** What one design-and-apply step does to the world. *)
Lemma stage_outcome_sound data Wn bt order w r w' :
  stage_outcome data Wn bt order w = (r, w') ->
  grows w w' /\
  match r with
  | Ok out =>
      exists x b a,
        heap w !! data = Some x /\ heap w !! out = None /\
        heap w' = <[out := direct_form b a [] [] x]> (heap w) /\
        calls w' = calls w ++ [CallButter order Wn bt;
                               CallLfilter b a data out]
  | Raise e =>
      heap w' = heap w /\
      calls w' = calls w ++ [CallButter order Wn bt] /\
      (e = InvalidCutoffError \/
       e = DanglingReference /\ heap w !! data = None)
  end.
Proof.
  unfold stage_outcome.
  destruct (accepts Wn bt).
  - destruct (heap w !! data) as [x|] eqn:Hx; intros [= <- <-].
    + split; [apply grows_insert_fresh|].
      exists x, (fst (butter_ba order Wn bt)), (snd (butter_ba order Wn bt)).
      simpl. rewrite <- app_assoc. auto using fresh_unused.
    + split; [intros l xs H; exact H|]. simpl. auto.
  - intros [= <- <-]. split; [intros l xs H; exact H|]. simpl. auto.
Qed.
Lemma lfilter_sound b a data w r w' :
  lfilter b a data w = (r, w') ->
  match r with
  | Ok out =>
      exists x,
        heap w !! data = Some x /\ heap w !! out = None /\
        heap w' = <[out := direct_form b a [] [] x]> (heap w) /\
        calls w' = calls w ++ [CallLfilter b a data out]
  | Raise e => w' = w /\ heap w !! data = None
  end.
Proof.
  unfold lfilter, bind, deref, alloc, record, ret.
  destruct (heap w !! data) as [x|]; simpl; intros [= <- <-]; simpl.
  - exists x. auto using fresh_unused.
  - auto.
Qed.

Lemma butter_filter_accepted data cutoff fs bt order x w :
  fs <> 0 -> well_shaped cutoff bt = true ->
  accepts (Wn_of cutoff fs) bt = true ->
  heap w !! data = Some x ->
  exists out w', Gen.butter_filter data cutoff fs bt order w = (Ok out, w').
Proof.
  intros Hfs Hshape Hacc Hx. rewrite butter_filter_run by assumption.
  unfold stage_outcome. rewrite Hacc, Hx. eauto.
Qed.

End Stages.

(** ** The chain as a plan of stages *)

Section Chain.
Context `{SP : SciPy}.

Lemma apply_filters_plan y sr hp lp bl bh w :
  Gen.apply_filters y sr hp lp bl bh w
  = run_stages (planned_stages sr hp lp bl bh) sr y w.
Proof.
  unfold Gen.apply_filters, planned_stages, Gen.FILTER_LOWER_BOUND.
  rewrite !half_rate_guard, !Z.gtb_ltb.
  destruct (0 <? hp), ((0 <? lp) && (2 * lp <? sr)),
    ((0 <? bl) && (2 * bh <? sr)); simpl; unfold bind, ret;
    repeat match goal with
           | |- context [Gen.butter_filter ?d ?c ?f ?b ?o ?v] =>
               destruct (Gen.butter_filter d c f b o v) as [[?|?] ?]
           end; reflexivity.
Qed.

Lemma run_stages_app s1 s2 sr y w :
  run_stages (s1 ++ s2) sr y w
  = match run_stages s1 sr y w with
    | (Ok y', w') => run_stages s2 sr y' w'
    | (Raise e, w') => (Raise e, w')
    end.
Proof.
  revert y w. induction s1 as [|[bt c] s1 IH]; intros y w; simpl.
  - reflexivity.
  - unfold bind. destruct (Gen.butter_filter y c sr bt 5 w) as [[y'|e] w'].
    + apply IH.
    + reflexivity.
Qed.

Lemma same_length_call_grows w w' n ev :
  grows w w' -> same_length_call w n ev -> same_length_call w' n ev.
Proof.
  intros Hg. destruct ev; simpl; auto.
  intros (xi & xo & Hi & Ho & Hli & Hlo). exists xi, xo. auto.
Qed.

Lemma butter_filter_sound data cutoff fs bt order x w r w' :
  heap w !! data = Some x ->
  Gen.butter_filter data cutoff fs bt order w = (r, w') ->
  grows w w' /\
  (exists new, calls w' = calls w ++ new /\
               Forall (same_length_call w' (length x)) new) /\
  match r with
  | Ok out =>
      heap w !! out = None /\
      exists xo, heap w' !! out = Some xo /\ length xo = length x
  | Raise e =>
      heap w' = heap w /\
      (e = ZeroDivisionError \/ e = TypeError \/ e = InvalidCutoffError)
  end.
Proof.
  intros Hx Hrun.
  rewrite butter_filter_halves in Hrun.
  destruct (normalise cutoff fs bt) as [Wn|e] eqn:Hn.
  2:{ injection Hrun as <- <-. apply normalise_raises in Hn.
      split; [apply grows_refl|]. split.
      - exists []. rewrite app_nil_r. auto.
      - split; [reflexivity|]. tauto. }
  - destruct (stage_outcome_sound _ _ _ _ _ _ _ Hrun) as [Hg Hr].
    split; [exact Hg|]. destruct r as [out|e].
    + destruct Hr as (x' & b & a & Hx' & Hout & Hheap & Hcalls).
      assert (x' = x) as -> by congruence.
      assert (Hnew : heap w' !! out = Some (direct_form b a [] [] x))
        by (rewrite Hheap; apply lookup_insert_eq).
      split.
      * eexists; split; [exact Hcalls|].
        repeat constructor. simpl.
        exists x, (direct_form b a [] [] x).
        auto using direct_form_length.
      * split; [exact Hout|]. eauto using direct_form_length.
    + destruct Hr as (Hheap & Hcalls & [He | [_ Hnone]]);
        [|congruence].
      split.
      * eexists; split; [exact Hcalls|]. repeat constructor.
      * auto.
Qed.

Lemma run_stages_sound stages sr y x w r w' :
  heap w !! y = Some x ->
  run_stages stages sr y w = (r, w') ->
  grows w w' /\
  (exists new, calls w' = calls w ++ new /\
               Forall (same_length_call w' (length x)) new) /\
  match r with
  | Ok out => exists xo, heap w' !! out = Some xo /\ length xo = length x
  | Raise e =>
      e = ZeroDivisionError \/ e = TypeError \/ e = InvalidCutoffError
  end.
Proof.
  revert y x w. induction stages as [|[bt c] rest IH]; intros y x w Hx; simpl.
  - intros [= <- <-]. split; [apply grows_refl|]. split; [|eauto].
    exists []. rewrite app_nil_r. auto.
  - unfold bind.
    destruct (Gen.butter_filter y c sr bt 5 w) as [[y1|e] w1] eqn:Hstage.
    + destruct (butter_filter_sound _ _ _ _ _ _ _ _ _ Hx Hstage)
        as (Hg1 & (new1 & Hc1 & Hf1) & _ & x1 & Hx1 & Hl1).
      intros Hrest.
      destruct (IH _ _ _ Hx1 Hrest) as (Hg2 & (new2 & Hc2 & Hf2) & Hr).
      rewrite Hl1 in *.
      split; [eapply grows_trans; eassumption|]. split; [|exact Hr].
      exists (new1 ++ new2). split.
      * now rewrite Hc2, Hc1, app_assoc.
      * apply Forall_app. split; [|exact Hf2].
        eapply Forall_impl; [exact Hf1|].
        intros ev. now apply same_length_call_grows.
    + intros [= <- <-].
      destruct (butter_filter_sound _ _ _ _ _ _ _ _ _ Hx Hstage)
        as (Hg1 & Hnew & _ & He).
      auto.
Qed.

Lemma planned_stages_inv sr hp lp bl bh bt c :
  In (bt, c) (planned_stages sr hp lp bl bh) ->
  (bt, c) = (high, PyInt hp) /\ 0 < hp \/
  (bt, c) = (low, PyInt lp) /\ 0 < lp /\ 2 * lp < sr \/
  (bt, c) = (band, PyList [bl; bh]) /\ 0 < bl /\ 2 * bh < sr.
Proof.
  unfold planned_stages.
  destruct (Z.ltb_spec 0 hp), (Z.ltb_spec 0 lp), (Z.ltb_spec (2 * lp) sr),
    (Z.ltb_spec 0 bl), (Z.ltb_spec (2 * bh) sr); simpl;
    intuition (auto; try congruence).
Qed.

Lemma planned_stages_shaped sr hp lp bl bh :
  Forall shaped (planned_stages sr hp lp bl bh).
Proof.
  apply Forall_forall. intros [bt c] Hin.
  apply list_elem_of_In, planned_stages_inv in Hin.
  destruct Hin as [[[= -> ->] _] | [[[= -> ->] _] | [[= -> ->] _]]];
    reflexivity.
Qed.

(** With a sample rate other than zero and an allocated input, a run of
    well-formed stages can only fail by the designer's refusal. *)
Lemma run_stages_refusal stages sr y x w e w' :
  sr <> 0 -> Forall shaped stages -> heap w !! y = Some x ->
  run_stages stages sr y w = (Raise e, w') ->
  e = InvalidCutoffError.
Proof.
  intros Hsr Hshaped. revert y x w.
  induction Hshaped as [|[bt c] rest Hs _ IH]; intros y x w Hx; simpl.
  - discriminate.
  - unfold bind.
    destruct (Gen.butter_filter y c sr bt 5 w) as [[y1|e1] w1] eqn:Hstage.
    + destruct (butter_filter_sound _ _ _ _ _ _ _ _ _ Hx Hstage)
        as (_ & _ & _ & x1 & Hx1 & _).
      now apply IH with x1.
    + intros [= <- <-].
      rewrite butter_filter_run in Hstage by assumption.
      apply stage_outcome_sound in Hstage.
      destruct Hstage as (_ & _ & _ & [He | [_ Hnone]]); congruence.
Qed.

(** Stages the designer accepts all run to the end. *)
Lemma run_stages_accepted stages sr y x w :
  sr <> 0 -> Forall (accepted sr) stages -> heap w !! y = Some x ->
  exists out w' xo,
    run_stages stages sr y w = (Ok out, w') /\ heap w' !! out = Some xo.
Proof.
  intros Hsr Hacc. revert y x w.
  induction Hacc as [|[bt c] rest [Hs Ha] _ IH]; intros y x w Hx; simpl.
  - unfold ret. eauto.
  - unfold bind.
    destruct (butter_filter_accepted y c sr bt 5 x w Hsr Hs Ha Hx)
      as (y1 & w1 & Hstage).
    rewrite Hstage.
    destruct (butter_filter_sound _ _ _ _ _ _ _ _ _ Hx Hstage)
      as (_ & _ & _ & x1 & Hx1 & _).
    now apply IH with x1.
Qed.

(** The designer calls a run of stages makes are those of its stages. *)
Lemma call_of_stages_cons sr s stages ev :
  call_of_stages sr stages ev -> call_of_stages sr (s :: stages) ev.
Proof.
  destruct ev; simpl; auto.
  intros (HN & c & Hin & HWn). split; [exact HN|]. exists c. auto.
Qed.

Lemma run_stages_calls stages sr y w r w' :
  sr <> 0 -> Forall shaped stages ->
  run_stages stages sr y w = (r, w') ->
  exists new, calls w' = calls w ++ new /\
              Forall (call_of_stages sr stages) new.
Proof.
  intros Hsr Hshaped. revert y w.
  induction Hshaped as [|[bt c] rest Hs _ IH]; intros y w; simpl.
  - intros [= <- <-]. exists []. rewrite app_nil_r. auto.
  - unfold bind.
    destruct (Gen.butter_filter y c sr bt 5 w) as [[y1|e1] w1] eqn:Hstage;
      rewrite butter_filter_run in Hstage by assumption;
      apply stage_outcome_sound in Hstage; destruct Hstage as [_ Hstage].
    + destruct Hstage as (x & b & a & _ & _ & _ & Hc1).
      intros Hrest. destruct (IH _ _ Hrest) as (new & Hc2 & Hf).
      eexists. split; [rewrite Hc2, Hc1, <- app_assoc; reflexivity|].
      apply Forall_app. split.
      * repeat constructor. exists c. simpl. auto.
      * eapply Forall_impl; [exact Hf|].
        intros ev. apply call_of_stages_cons.
    + destruct Hstage as (_ & Hc1 & _). intros [= <- <-].
      eexists. split; [exact Hc1|].
      repeat constructor. exists c. simpl. auto.
Qed.

(** A band the guard lets through and the designer refuses: the chain
    ends in [InvalidCutoffError], and unless the high-pass stage was
    itself refused the refused call is the band design. *)
Lemma chain_band_refused y x sr hp lp bl bh w r w' :
  0 < sr -> heap w !! y = Some x ->
  0 < bl -> 2 * bh < sr ->
  accepts (WnList [norm bl sr; norm bh sr]) band = false ->
  Gen.apply_filters y sr hp lp bl bh w = (r, w') ->
  r = Raise InvalidCutoffError /\
  (hp <= 0 \/ 2 * hp < sr ->
   last (calls w')
   = Some (CallButter 5 (WnList [norm bl sr; norm bh sr]) band)).
Proof.
  intros Hsr Hx Hbl Hbh Hrefused. rewrite apply_filters_plan.
  assert (Hnz : sr <> 0) by lia.
  pose proof (planned_stages_shaped sr hp lp bl bh) as Hshaped.
  unfold planned_stages in *.
  destruct (Z.ltb_spec 0 bl); [|lia].
  destruct (Z.ltb_spec (2 * bh) sr); [|lia]. simpl andb in *. cbv iota in *.
  rewrite app_assoc in *. apply Forall_app in Hshaped as [Hpre _].
  rewrite run_stages_app.
  set (prefix := _ ++ _) in *.
  destruct (run_stages prefix sr y w) as [[y1|e1] w1] eqn:Hprefix.
  - apply run_stages_sound with (x := x) in Hprefix as (_ & _ & x1 & Hx1 & _);
      [|exact Hx].
    simpl. unfold bind.
    rewrite butter_filter_run by (try reflexivity; lia).
    unfold stage_outcome. simpl Wn_of. rewrite Hrefused.
    intros [= <- <-]. split; [reflexivity|]. intros _. simpl.
    apply last_snoc.
  - intros [= <- <-].
    assert (e1 = InvalidCutoffError) as ->
      by (eapply run_stages_refusal; eassumption).
    split; [reflexivity|]. intros Hhp. exfalso.
    assert (Hacc : Forall (accepted sr) prefix).
    { subst prefix.
      destruct (Z.ltb_spec 0 hp), (Z.ltb_spec 0 lp),
        (Z.ltb_spec (2 * lp) sr); simpl; repeat constructor; simpl;
        rewrite norm_in_open_unit by assumption;
        apply andb_true_iff; split;
        first [apply Z.ltb_lt; lia]. }
    destruct (run_stages_accepted prefix sr y x w Hnz Hacc Hx)
      as (out & w2 & xo & Hok & _).
    congruence.
Qed.
End Chain.

(** * The claims *)

Section Claims.
Context `{SP : SciPy}.

(** C1. With all four cutoffs at the disabled sentinel the chain, in
    [gen.py] and in [main.py] alike, returns the very array it was
    given, for every buffer and every sample rate: no designer or filter
    call is made and the store is left as it was. *)
Theorem disabled_cutoffs_passthrough (y : loc) (sr : Z) (w : world) :
  Gen.apply_filters y sr disabled disabled disabled disabled w = (Ok y, w) /\
  Main.apply_filters y sr disabled disabled disabled disabled w = (Ok y, w).
Proof. split; reflexivity. Qed.

Lemma Qltb_lt (x y : Q) : Qltb x y = true <-> (x < y)%Q.
Proof.
  unfold Qltb. rewrite negb_true_iff.
  destruct (Qle_bool y x) eqn:E.
  - apply Qle_bool_iff in E. split; [discriminate|].
    intros H. exfalso. exact (Qlt_not_le _ _ H E).
  - split; [intros _|reflexivity].
    apply Qnot_le_lt. intros H. apply Qle_bool_iff in H. congruence.
Qed.

Lemma below_half_rate (c sr : Z) :
  (inject_Z c < inject_Z sr / 2)%Q <-> 2 * c < sr.
Proof. rewrite <- Qltb_lt, half_rate_guard. apply Z.ltb_lt. Qed.

(** C4. For a sample rate and cutoffs within the range on which the
    float operations are exact, the chain is the sequential run of at
    most three stages, in the order high-pass, low-pass, band-pass,
    each applied to the output of the one before.  The high-pass stage
    is among them exactly when [highpass_cutoff > 0], the low-pass
    stage exactly when [0 < lowpass_cutoff < sr / 2], and the band-pass
    stage exactly when [bandpass_low > 0] and
    [bandpass_high < sr / 2]. *)
Theorem chain_stages_in_fixed_order (y : loc) (sr hp lp bl bh : Z)
    (w : world) :
  floats_safe sr hp lp bl bh ->
  let plan := planned_stages sr hp lp bl bh in
  Gen.apply_filters y sr hp lp bl bh w = run_stages plan sr y w /\
  sublist (map fst plan) [high; low; band] /\
  (In (high, PyInt hp) plan <-> hp > 0) /\
  (In (low, PyInt lp) plan <->
     lp > 0 /\ (inject_Z lp < inject_Z sr / 2)%Q) /\
  (In (band, PyList [bl; bh]) plan <->
     bl > 0 /\ (inject_Z bh < inject_Z sr / 2)%Q) /\
  (forall bt c, In (bt, c) plan ->
     (bt, c) = (high, PyInt hp) \/ (bt, c) = (low, PyInt lp) \/
     (bt, c) = (band, PyList [bl; bh])).
Proof.
  intros _ plan. split; [apply apply_filters_plan|].
  rewrite !below_half_rate. subst plan. unfold planned_stages.
  destruct (Z.ltb_spec 0 hp), (Z.ltb_spec 0 lp), (Z.ltb_spec (2 * lp) sr),
    (Z.ltb_spec 0 bl), (Z.ltb_spec (2 * bh) sr); simpl.
  all: split;
    [solve [repeat first [apply sublist_nil | apply sublist_skip
                         | apply sublist_cons]]|].
  all: repeat split; intros;
    solve [intuition (auto; try congruence; try lia)].
Qed.
(** C5. A filter stage whose design is accepted (rate and cutoffs
    within the range on which the float operations are exact) returns
    an array; whenever a stage returns an array it has exactly as many
    samples as the input; and in a run of the chain every application
    made, and the result, has the length of the chain's input. *)
Theorem filtering_preserves_length (y : loc) (x : list sample)
    (w : world) :
  heap w !! y = Some x ->
  (forall cutoff fs bt order,
     float_safe fs -> cutoff_safe cutoff ->
     fs <> 0 -> well_shaped cutoff bt = true ->
     accepts (Wn_of cutoff fs) bt = true ->
     exists out w',
       Gen.butter_filter y cutoff fs bt order w = (Ok out, w')) /\
  (forall cutoff fs bt order out w',
     Gen.butter_filter y cutoff fs bt order w = (Ok out, w') ->
     exists xo, heap w' !! out = Some xo /\ length xo = length x) /\
  (forall sr hp lp bl bh r w',
     Gen.apply_filters y sr hp lp bl bh w = (r, w') ->
     (exists new,
        calls w' = calls w ++ new /\
        Forall (same_length_call w' (length x)) new) /\
     (forall out, r = Ok out ->
        exists xo, heap w' !! out = Some xo /\ length xo = length x)).
Proof.
  intros Hx. split; [|split].
  - intros. eapply butter_filter_accepted; eassumption.
  - intros cutoff fs bt order out w' Hrun.
    destruct (butter_filter_sound _ _ _ _ _ _ _ _ _ Hx Hrun)
      as (_ & _ & _ & Hout). exact Hout.
  - intros sr hp lp bl bh r w' Hrun. rewrite apply_filters_plan in Hrun.
    destruct (run_stages_sound _ _ _ _ _ _ _ Hx Hrun) as (_ & Hnew & Hr).
    split; [exact Hnew|]. intros out ->. exact Hr.
Qed.

(** C7. Applying a filter writes to no array that existed before the
    call: the input, like every other array of the store, holds the
    samples it held, and the array returned is a new one, distinct from
    the input.  This holds of [lfilter] and of [butter_filter]. *)
Theorem filter_leaves_input_untouched (data : loc) (w : world) :
  (forall b a r w',
     lfilter b a data w = (r, w') ->
     grows w w' /\ heap w' !! data = heap w !! data /\
     forall out, r = Ok out ->
       heap w !! out = None /\ is_Some (heap w' !! out) /\ out <> data) /\
  (forall cutoff fs bt order r w',
     Gen.butter_filter data cutoff fs bt order w = (r, w') ->
     grows w w' /\ heap w' !! data = heap w !! data /\
     forall out, r = Ok out ->
       heap w !! out = None /\ is_Some (heap w' !! out) /\ out <> data).
Proof.
  assert (Hins : forall out xs (h h' : gmap loc (list sample)) x,
            h !! data = Some x -> h !! out = None -> h' = <[out := xs]> h ->
            h' !! data = h !! data /\ is_Some (h' !! out) /\ out <> data).
  { intros out xs h h' x Hd Hout ->.
    assert (out <> data) by congruence.
    rewrite lookup_insert_ne by assumption. rewrite lookup_insert_eq. eauto. }
  split.
  - intros b a r w' Hrun. apply lfilter_sound in Hrun.
    destruct r as [out|e].
    + destruct Hrun as (x & Hx & Hout & Hheap & _).
      destruct (Hins _ _ _ _ _ Hx Hout Hheap) as (Hsame & Hnew & Hne).
      split; [|split; [exact Hsame|]].
      * intros l xs Hl. rewrite Hheap. rewrite lookup_insert_ne; congruence.
      * intros ? [= <-]. auto.
    + destruct Hrun as [-> _]. split; [apply grows_refl|].
      split; [reflexivity|discriminate].
  - intros cutoff fs bt order r w' Hrun. rewrite butter_filter_halves in Hrun.
    destruct (normalise cutoff fs bt) as [Wn|e0].
    2:{ injection Hrun as <- <-. split; [apply grows_refl|].
        split; [reflexivity|discriminate]. }
    destruct (stage_outcome_sound _ _ _ _ _ _ _ Hrun) as [Hg Hr].
    split; [exact Hg|]. destruct r as [out|e].
    + destruct Hr as (x & b & a & Hx & Hout & Hheap & _).
      destruct (Hins _ _ _ _ _ Hx Hout Hheap) as (Hsame & Hnew & Hne).
      split; [exact Hsame|]. intros ? [= <-]. auto.
    + destruct Hr as (-> & _). split; [reflexivity|discriminate].
Qed.
Lemma allocate_twice (h : gmap loc (list sample)) (xs : list sample) :
  let o1 := fresh (dom h) in
  let h1 := <[o1 := xs]> h in
  let o2 := fresh (dom h1) in
  let h2 := <[o2 := xs]> h1 in
  o1 <> o2 /\ h2 !! o1 = Some xs /\ h2 !! o2 = Some xs /\
  (forall l ys, h !! l = Some ys -> h1 !! l = Some ys) /\
  (forall l ys, h !! l = Some ys -> h2 !! l = Some ys).
Proof.
  intros o1 h1 o2 h2.
  assert (H1 : h1 !! o1 = Some xs) by apply lookup_insert_eq.
  assert (H2 : h1 !! o2 = None) by apply fresh_unused.
  assert (Hne : o1 <> o2) by congruence.
  assert (Hg1 : forall l ys, h !! l = Some ys -> h1 !! l = Some ys).
  { intros l ys Hl. subst h1. rewrite lookup_insert_ne; [exact Hl|].
    intros <-. subst o1. rewrite fresh_unused in Hl. discriminate. }
  repeat split; try assumption.
  - subst h2. now rewrite lookup_insert_ne by congruence.
  - apply lookup_insert_eq.
  - intros l ys Hl. subst h2. rewrite lookup_insert_ne; [auto|].
    intros <-. apply Hg1 in Hl. congruence.
Qed.

Lemma stage_outcome_twice data Wn bt order w r1 w1 r2 w2 :
  stage_outcome data Wn bt order w = (r1, w1) ->
  stage_outcome data Wn bt order w1 = (r2, w2) ->
  grows w w2 /\ same_outcome w2 r1 r2.
Proof.
  unfold stage_outcome. destruct (accepts Wn bt).
  2:{ intros [= <- <-] [= <- <-].
      split; [intros l xs Hl; exact Hl|reflexivity]. }
  destruct (heap w !! data) as [x|] eqn:Hx.
  2:{ intros [= <- <-]. simpl. rewrite Hx. intros [= <- <-].
      split; [intros l xs Hl; exact Hl|reflexivity]. }
  intros [= <- <-]. simpl.
  pose proof (allocate_twice (heap w)
                (direct_form (fst (butter_ba order Wn bt))
                   (snd (butter_ba order Wn bt)) [] [] x)) as Htwice.
  simpl in Htwice. destruct Htwice as (Hne & Ho1 & Ho2 & Hg1 & Hg2).
  rewrite (Hg1 _ _ Hx). intros [= <- <-]. split.
  - exact Hg2.
  - simpl. rewrite Ho1, Ho2. eauto.
Qed.

(** C6. Design and application are deterministic and keep to
    themselves.  The designer's answer does not depend on the world it
    is asked in, and it changes no array.  Applying the same
    coefficients to the same array a second time, and likewise calling
    [butter_filter] a second time with the same arguments, gives the
    outcome of the first call again, and no array that existed before
    is changed by either call. *)
Theorem design_and_apply_deterministic :
  (forall N Wn bt (w1 w2 : world),
     fst (butter N Wn bt w1) = fst (butter N Wn bt w2) /\
     heap (snd (butter N Wn bt w1)) = heap w1) /\
  (forall b a data (w : world) r1 w1 r2 w2,
     lfilter b a data w = (r1, w1) ->
     lfilter b a data w1 = (r2, w2) ->
     grows w w2 /\ same_outcome w2 r1 r2) /\
  (forall data cutoff fs bt order (w : world) r1 w1 r2 w2,
     Gen.butter_filter data cutoff fs bt order w = (r1, w1) ->
     Gen.butter_filter data cutoff fs bt order w1 = (r2, w2) ->
     grows w w2 /\ same_outcome w2 r1 r2).
Proof.
  split; [|split].
  - intros N Wn bt w1 w2. unfold butter, bind, record, ret, raise.
    destruct (accepts Wn bt); split; reflexivity.
  - intros b a data w r1 w1 r2 w2.
    unfold lfilter, bind, deref, alloc, record, ret.
    destruct (heap w !! data) as [x|] eqn:Hx; simpl.
    2:{ intros [= <- <-]. rewrite Hx. intros [= <- <-].
        split; [intros l xs Hl; exact Hl|reflexivity]. }
    intros [= <- <-]. simpl.
    pose proof (allocate_twice (heap w) (direct_form b a [] [] x)) as Htwice.
    simpl in Htwice. destruct Htwice as (Hne & Ho1 & Ho2 & Hg1 & Hg2).
    rewrite (Hg1 _ _ Hx). simpl. intros [= <- <-]. split.
    + exact Hg2.
    + simpl. rewrite Ho1, Ho2. eauto.
  - intros data cutoff fs bt order w r1 w1 r2 w2.
    rewrite !butter_filter_halves.
    destruct (normalise cutoff fs bt) as [Wn|e].
    + apply stage_outcome_twice.
    + intros [= <- <-] [= <- <-]. split; [intros l xs Hl; exact Hl|reflexivity].
Qed.

(** C9. The two copies of the filter code agree: [butter_filter] and
    [apply_filters] of [gen.py] return, on every argument and in every
    world, what those of [main.py] return. *)
Theorem gen_and_main_filters_agree :
  (forall data cutoff fs bt order (w : world),
     Gen.butter_filter data cutoff fs bt order w
     = Main.butter_filter data cutoff fs bt order w) /\
  (forall y sr hp lp bl bh (w : world),
     Gen.apply_filters y sr hp lp bl bh w
     = Main.apply_filters y sr hp lp bl bh w).
Proof. split; reflexivity. Qed.
Lemma accepts_band lo hi fs :
  0 < fs ->
  accepts (WnList [norm lo fs; norm hi fs]) band
  = (0 <? lo) && (2 * lo <? fs) && ((0 <? hi) && (2 * hi <? fs))
    && (lo <? hi).
Proof.
  intros Hfs. simpl. now rewrite !norm_in_open_unit, norm_lt by assumption.
Qed.

Lemma refused_design data cutoff fs bt order w :
  fs <> 0 -> well_shaped cutoff bt = true ->
  accepts (Wn_of cutoff fs) bt = false ->
  Gen.butter_filter data cutoff fs bt order w
  = (Raise InvalidCutoffError,
     World (heap w) (calls w ++ [CallButter order (Wn_of cutoff fs) bt])).
Proof.
  intros Hfs Hshape Hacc. rewrite butter_filter_run by assumption.
  unfold stage_outcome. now rewrite Hacc.
Qed.

(** C2 (amended).  Sample rate and cutoffs are taken within the range
    on which the float operations are exact.  At a positive sample rate
    the designer refuses a low-pass cutoff at or above Nyquist, and a
    band with either edge at or above Nyquist.  The chain skips the
    low-pass stage for such a cutoff, and skips the band stage when the
    band's high edge is at or above Nyquist, so every low-pass call it
    makes has its cutoff below Nyquist and every band call its high
    edge below Nyquist.  The low edge of the band is not held against
    Nyquist: with it at or above Nyquist and the high edge below, the
    designer is called and the chain ends in [InvalidCutoffError]. *)
Theorem nyquist_refusal_and_guards (sr : Z) :
  0 < sr -> float_safe sr ->
  (forall data c order (w : world),
     float_safe c ->
     sr <= 2 * c ->
     Gen.butter_filter data (PyInt c) sr low order w
     = (Raise InvalidCutoffError,
        World (heap w)
          (calls w ++ [CallButter order (Wn1 (norm c sr)) low]))) /\
  (forall data lo hi order (w : world),
     float_safe lo -> float_safe hi ->
     sr <= 2 * lo \/ sr <= 2 * hi ->
     Gen.butter_filter data (PyList [lo; hi]) sr band order w
     = (Raise InvalidCutoffError,
        World (heap w)
          (calls w ++
           [CallButter order (WnList [norm lo sr; norm hi sr]) band]))) /\
  (forall y hp lp bl bh (w : world),
     floats_safe sr hp lp bl bh ->
     sr <= 2 * lp ->
     Gen.apply_filters y sr hp lp bl bh w
     = Gen.apply_filters y sr hp disabled bl bh w) /\
  (forall y hp lp bl bh (w : world),
     floats_safe sr hp lp bl bh ->
     sr <= 2 * bh ->
     Gen.apply_filters y sr hp lp bl bh w
     = Gen.apply_filters y sr hp lp disabled disabled w) /\
  (forall y hp lp bl bh (w : world) r w',
     floats_safe sr hp lp bl bh ->
     Gen.apply_filters y sr hp lp bl bh w = (r, w') ->
     exists new, calls w' = calls w ++ new /\ Forall within_guard new) /\
  (forall y x hp lp bl bh (w : world) r w',
     floats_safe sr hp lp bl bh ->
     heap w !! y = Some x ->
     0 < bl -> sr <= 2 * bl -> 2 * bh < sr ->
     Gen.apply_filters y sr hp lp bl bh w = (r, w') ->
     r = Raise InvalidCutoffError /\
     (hp <= 0 \/ 2 * hp < sr ->
      last (calls w')
      = Some (CallButter 5 (WnList [norm bl sr; norm bh sr]) band))).
Proof.
  intros Hsr _. assert (Hnz : sr <> 0) by lia.
  split; [|split; [|split; [|split; [|split]]]].
  - intros data c order w _ Hc.
    apply (refused_design data (PyInt c) sr low order w Hnz eq_refl).
    simpl. rewrite norm_in_open_unit by assumption.
    apply andb_false_iff. right. apply Z.ltb_ge. exact Hc.
  - intros data lo hi order w _ _ Hedge.
    apply (refused_design data (PyList [lo; hi]) sr band order w Hnz eq_refl).
    change (Wn_of (PyList [lo; hi]) sr)
      with (WnList [norm lo sr; norm hi sr]).
    rewrite accepts_band by assumption.
    destruct (Z.ltb_spec (2 * lo) sr), (Z.ltb_spec (2 * hi) sr);
      try lia; rewrite ?andb_false_r; reflexivity.
  - intros y hp lp bl bh w _ Hlp. rewrite !apply_filters_plan.
    unfold planned_stages, disabled.
    destruct (Z.ltb_spec (2 * lp) sr); [lia|].
    now rewrite andb_false_r.
  - intros y hp lp bl bh w _ Hbh. rewrite !apply_filters_plan.
    unfold planned_stages, disabled.
    destruct (Z.ltb_spec (2 * bh) sr); [lia|].
    now rewrite andb_false_r.
  - intros y hp lp bl bh w r w' _ Hrun. rewrite apply_filters_plan in Hrun.
    destruct (run_stages_calls _ _ _ _ _ _ Hnz
                (planned_stages_shaped sr hp lp bl bh) Hrun)
      as (new & Hcalls & Hnew).
    exists new. split; [exact Hcalls|].
    eapply Forall_impl; [exact Hnew|].
    intros [N Wn bt| | | |]; simpl; try tauto.
    intros (_ & c & Hin & ->). apply planned_stages_inv in Hin.
    destruct Hin as [[[= -> ->] _]
                    | [[[= -> ->] [Hlo Hhi]] | [[= -> ->] [Hlo Hhi]]]];
      simpl; [exact I| |].
    + split; apply Qltb_lt.
      * rewrite norm_positive by assumption. now apply Z.ltb_lt.
      * rewrite norm_below_one by assumption. now apply Z.ltb_lt.
    + split; apply Qltb_lt.
      * rewrite norm_positive by assumption. now apply Z.ltb_lt.
      * rewrite norm_below_one by assumption. now apply Z.ltb_lt.
  - intros y x hp lp bl bh w r w' _ Hx Hbl Hedge Hbh.
    apply chain_band_refused with (x := x); try assumption.
    rewrite accepts_band by assumption.
    destruct (Z.ltb_spec (2 * bl) sr); [lia|].
    now rewrite andb_false_r.
Qed.

(** C3. Sample rate and cutoffs are taken within the range on which the
    float operations are exact.  With [bandpass_low = 100] and
    [bandpass_high = 50] and a sample rate whose Nyquist frequency lies
    above 50, the band stage's guard holds and the chain ends in
    [InvalidCutoffError]; unless the high-pass stage was refused before
    it, the refused call is the band design with the edges 100 and 50.
    At a positive sample rate the designer refuses every band whose low
    edge is not below its high edge. *)
Theorem inverted_band_is_refused :
  (forall y x sr hp lp (w : world) r w',
     floats_safe sr hp lp 100 50 ->
     100 < sr -> heap w !! y = Some x ->
     Gen.apply_filters y sr hp lp 100 50 w = (r, w') ->
     In (band, PyList [100; 50]) (planned_stages sr hp lp 100 50) /\
     r = Raise InvalidCutoffError /\
     (hp <= 0 \/ 2 * hp < sr ->
      last (calls w')
      = Some (CallButter 5 (WnList [norm 100 sr; norm 50 sr]) band))) /\
  (forall data lo hi fs order (w : world),
     float_safe fs -> float_safe lo -> float_safe hi ->
     0 < fs -> hi <= lo ->
     Gen.butter_filter data (PyList [lo; hi]) fs band order w
     = (Raise InvalidCutoffError,
        World (heap w)
          (calls w ++
           [CallButter order (WnList [norm lo fs; norm hi fs]) band]))).
Proof.
  split.
  - intros y x sr hp lp w r w' _ Hsr Hx Hrun. split.
    + unfold planned_stages.
      destruct (Z.ltb_spec (2 * 50) sr); [|lia].
      rewrite !in_app_iff. right. right. simpl. auto.
    + apply chain_band_refused with (y := y) (x := x) (lp := lp) (w := w);
        try assumption; try lia.
      rewrite accepts_band by lia. now rewrite andb_false_r.
  - intros data lo hi fs order w _ _ _ Hfs Hinv.
    assert (Hnz : fs <> 0) by lia.
    apply (refused_design data (PyList [lo; hi]) fs band order w Hnz eq_refl).
    change (Wn_of (PyList [lo; hi]) fs)
      with (WnList [norm lo fs; norm hi fs]).
    rewrite accepts_band by assumption.
    destruct (Z.ltb_spec lo hi); [lia|]. now rewrite andb_false_r.
Qed.

(** C10. Sample rate and cutoffs are taken within the range on which
    the float operations are exact.  At a positive sample rate, a band
    whose high edge is at most 0 (the disabled sentinel, say) is
    skipped exactly when its low edge is at most 0 as well.  With the
    low edge above 0 the guard holds, the designer is called with a
    normalised high edge that is at most 0, and the chain ends in
    [InvalidCutoffError]. *)
Theorem sentinel_high_edge_does_not_disable (sr bl bh : Z) :
  0 < sr -> bh <= 0 ->
  float_safe sr -> float_safe bl -> float_safe bh ->
  (forall hp lp,
     float_safe hp -> float_safe lp ->
     (In (band, PyList [bl; bh]) (planned_stages sr hp lp bl bh)
      <-> 0 < bl)) /\
  (bl <= 0 ->
   forall y hp lp (w : world),
     float_safe hp -> float_safe lp ->
     Gen.apply_filters y sr hp lp bl bh w
     = Gen.apply_filters y sr hp lp disabled disabled w) /\
  (0 < bl ->
   (norm bh sr <= 0)%Q /\
   forall y x hp lp (w : world) r w',
     float_safe hp -> float_safe lp ->
     heap w !! y = Some x ->
     Gen.apply_filters y sr hp lp bl bh w = (r, w') ->
     r = Raise InvalidCutoffError /\
     (hp <= 0 \/ 2 * hp < sr ->
      last (calls w')
      = Some (CallButter 5 (WnList [norm bl sr; norm bh sr]) band))).
Proof.
  intros Hsr Hbh _ _ _. split; [|split].
  - intros hp lp _ _. split.
    + intros Hin. apply planned_stages_inv in Hin.
      destruct Hin as [[[=] _] | [[[=] _] | [_ [Hbl _]]]]. exact Hbl.
    + intros Hbl. unfold planned_stages.
      destruct (Z.ltb_spec 0 bl); [|lia].
      destruct (Z.ltb_spec (2 * bh) sr); [|lia].
      rewrite !in_app_iff. right. right. simpl. auto.
  - intros Hbl y hp lp w _ _. rewrite !apply_filters_plan.
    unfold planned_stages, disabled.
    destruct (Z.ltb_spec 0 bl); [lia|]. reflexivity.
  - intros Hbl. split.
    + apply Qnot_lt_le. intros Hpos. apply Qltb_lt in Hpos.
      rewrite norm_positive in Hpos by assumption.
      apply Z.ltb_lt in Hpos. lia.
    + intros y x hp lp w r w' _ _ Hx.
      apply chain_band_refused with (x := x); try assumption; try lia.
      rewrite accepts_band by assumption.
      destruct (Z.ltb_spec 0 bh); [lia|].
      now rewrite !andb_false_r.
Qed.
End Claims.

(** ** The pipeline *)

Section Pipeline.
Context `{SP : SciPy} `{LB : !Librosa}.

Lemma monotone_ret {A} (a : A) : monotone (ret a).
Proof.
  intros w r w' [= <- <-]. split; [apply grows_refl|].
  exists []. now rewrite app_nil_r.
Qed.

Lemma monotone_lift {A} (r0 : result A) : monotone (lift r0).
Proof.
  intros w r w' [= <- <-]. split; [apply grows_refl|].
  exists []. now rewrite app_nil_r.
Qed.

Lemma monotone_bind {A B} (m : M A) (k : A -> M B) :
  monotone m -> (forall a, monotone (k a)) -> monotone (bind m k).
Proof.
  intros Hm Hk w r w'. unfold bind.
  destruct (m w) as [[a|e] w1] eqn:E; destruct (Hm _ _ _ E) as [Hg [n1 Hc]].
  - intros Hrun. destruct (Hk _ _ _ _ Hrun) as [Hg2 [n2 Hc2]].
    split; [eapply grows_trans; eassumption|].
    exists (n1 ++ n2). now rewrite Hc2, Hc, app_assoc.
  - intros [= <- <-]. eauto.
Qed.

Lemma monotone_plot f fn y sr : monotone (plot f fn y sr).
Proof.
  intros w r w'. unfold plot, bind, deref, record, lift.
  destruct (heap w !! y); intros [= <- <-].
  - split; [intros ? ? H; exact H|]. simpl. eauto.
  - split; [apply grows_refl|]. exists []. now rewrite app_nil_r.
Qed.

Lemma monotone_onset y sr : monotone (librosa_onset_strength y sr).
Proof.
  intros w r w'.
  unfold librosa_onset_strength, bind, deref, lift, alloc, record, ret.
  destruct (heap w !! y) as [ys|].
  2:{ intros [= <- <-]. split; [apply grows_refl|].
      exists []. now rewrite app_nil_r. }
  destruct (onset_strength ys sr) as [env|e]; intros [= <- <-].
  - split; [apply grows_insert_fresh|]. simpl. eauto.
  - split; [apply grows_refl|]. exists []. now rewrite app_nil_r.
Qed.

Lemma plot_run f fn y sr ys w :
  heap w !! y = Some ys ->
  plot f fn y sr w
  = (render f fn ys sr, World (heap w) (calls w ++ [CallFeature f y sr])).
Proof.
  intros Hy. unfold plot, bind, deref, record, lift. now rewrite Hy.
Qed.

(** C8 (amended).  The pipeline makes no check of what the decoder
    hands over.  An exception of the decoder passes through unchanged.
    Given samples and a rate, be the samples none, and with the filters
    disabled, the first feature routine, the waveform plot, is run on
    that very array; and an exception that routine raises on it passes
    through unchanged, with no further routine called. *)
Theorem pipeline_runs_on_whatever_is_decoded (file : string) (w : world) :
  (forall e hp lp bl bh,
     load file = Raise e ->
     Gen.analyze_audio file hp lp bl bh w = (Raise e, w)) /\
  (forall ys sr,
     load file = Ok (ys, sr) ->
     let y := fresh (dom (heap w)) in
     exists r w' rest,
       Gen.analyze_audio file disabled disabled disabled disabled w
       = (r, w') /\
       heap w' !! y = Some ys /\
       calls w' = calls w ++ CallLoad file y
                    :: CallFeature Waveform y (Some sr) :: rest) /\
  (forall ys sr e,
     load file = Ok (ys, sr) ->
     render Waveform (Some (basename file)) ys (Some sr) = Raise e ->
     let y := fresh (dom (heap w)) in
     exists w',
       Gen.analyze_audio file disabled disabled disabled disabled w
       = (Raise e, w') /\
       heap w' !! y = Some ys /\
       calls w' = calls w ++ [CallLoad file y;
                              CallFeature Waveform y (Some sr)]).
Proof.
  split; [|split].
  - intros e hp lp bl bh Hload.
    unfold Gen.analyze_audio, librosa_load, bind, lift. now rewrite Hload.
  - intros ys sr Hload y.
    set (w1 := World (<[y := ys]> (heap w)) (calls w ++ [CallLoad file y])).
    assert (Hy1 : heap w1 !! y = Some ys) by apply lookup_insert_eq.
    unfold Gen.analyze_audio.
    match goal with
    | |- context [bind (librosa_load file) ?k] => set (after_load := k)
    end.
    assert (Hstart : bind (librosa_load file) after_load w
                     = after_load (y, sr) w1).
    { unfold librosa_load, bind, lift, alloc, record, ret.
      now rewrite Hload. }
    rewrite Hstart. subst after_load. cbv beta. simpl fst. simpl snd.
    match goal with
    | |- context [bind (Gen.apply_filters ?a ?b ?c ?d ?e ?f) ?k] =>
        set (after_filters := k);
        change (bind (Gen.apply_filters a b c d e f) after_filters w1)
          with (after_filters y w1)
    end.
    subst after_filters. cbv beta.
    match goal with
    | |- context [bind (Gen.plot_waveform ?fn y sr) ?k] =>
        set (after_waveform := k);
        assert (Hmono : forall img, monotone (after_waveform img))
    end.
    { intros img. subst after_waveform.
      unfold Gen.plot_spectrogram, Gen.plot_mfcc, Gen.plot_zcr,
        Gen.plot_spectral_centroid, Gen.plot_spectral_bandwidth,
        Gen.plot_rms, Gen.plot_spectral_contrast,
        Gen.plot_spectral_rolloff, Gen.plot_tempo, Gen.plot_tempogram.
      repeat first
        [ apply monotone_ret
        | apply monotone_bind;
          [first [apply monotone_plot | apply monotone_onset]|intros ?] ]. }
    unfold bind at 1, Gen.plot_waveform.
    rewrite (plot_run _ _ _ _ ys) by exact Hy1.
    set (w2 := World (heap w1) _).
    destruct (render Waveform _ ys (Some sr)) as [img|e].
    + destruct (after_waveform img w2) as [r w'] eqn:Hrest.
      destruct (Hmono img _ _ _ Hrest) as [Hg [new Hc]].
      exists r, w', new. split; [reflexivity|]. split.
      * apply Hg. exact Hy1.
      * rewrite Hc. subst w2 w1. simpl. now rewrite <- !app_assoc.
    + exists (Raise e), w2, []. split; [reflexivity|]. split.
      * exact Hy1.
      * subst w2 w1. simpl. now rewrite <- !app_assoc.
  - intros ys sr e Hload Hrender y.
    unfold Gen.analyze_audio, librosa_load.
    unfold bind at 1. unfold bind at 1. unfold lift at 1. rewrite Hload.
    unfold bind at 1. unfold alloc at 1. unfold bind at 1.
    unfold record at 1, ret at 1. cbv beta iota. simpl fst. simpl snd.
    fold y.
    set (w1 := World _ _).
    assert (Hy1 : heap w1 !! y = Some ys) by apply lookup_insert_eq.
    unfold bind at 1.
    change (Gen.apply_filters y sr disabled disabled disabled disabled w1)
      with (Ok y, w1). cbv beta iota.
    unfold bind at 1, Gen.plot_waveform.
    rewrite (plot_run _ _ _ _ ys) by exact Hy1. rewrite Hrender.
    eexists. split; [reflexivity|]. split; [exact Hy1|].
    subst w1. simpl. now rewrite <- app_assoc.
Qed.
End Pipeline.

(** * Further behaviour of the chain *)

Section ChainBehaviour.
Context `{SP : SciPy}.

Ltac q_sign :=
  unfold in_open_unit, norm, Qltb, Qle_bool, Qeq_bool, Qdiv, Qmult, Qinv,
    inject_Z;
  cbn; rewrite ?Z.mul_1_l, ?Z.mul_1_r, ?Pos.mul_1_l, ?Pos.mul_1_r; cbn;
  repeat match goal with
         | |- context [Z.leb ?a ?b] => destruct (Z.leb_spec a b)
         | |- context [Z.ltb ?a ?b] => destruct (Z.ltb_spec a b)
         end;
  cbn; solve [reflexivity | lia | nia].

Lemma norm_negative_rate c fs :
  fs < 0 -> 0 < c -> in_open_unit (norm c fs) = false.
Proof.
  intros Hfs Hc. destruct fs as [|p|p]; try lia.
  destruct c as [|q|q]; try lia. q_sign.
Qed.

Lemma norm_at_least_one c fs : 0 < fs -> fs <= 2 * c -> (1 <= norm c fs)%Q.
Proof.
  intros Hfs Hc. apply Qnot_lt_le. intros Hlt. apply Qltb_lt in Hlt.
  rewrite norm_below_one in Hlt by assumption. apply Z.ltb_lt in Hlt. lia.
Qed.

Lemma highpass_refused_run y sr hp lp bl bh w :
  0 < sr -> 0 < hp -> sr <= 2 * hp ->
  Gen.apply_filters y sr hp lp bl bh w
  = (Raise InvalidCutoffError,
     World (heap w) (calls w ++ [CallButter 5 (Wn1 (norm hp sr)) high])).
Proof.
  intros Hsr Hhp Hny. unfold Gen.apply_filters, Gen.FILTER_LOWER_BOUND.
  rewrite Z.gtb_ltb. destruct (Z.ltb_spec 0 hp); [|lia].
  unfold bind at 1.
  rewrite (refused_design y (PyInt hp) sr high 5 w); try reflexivity; try lia.
  simpl. rewrite norm_in_open_unit by assumption.
  apply andb_false_iff. right. apply Z.ltb_ge. exact Hny.
Qed.

(** X1. The high-pass guard tests the cutoff against the lower bound
    only.  At a positive sample rate, a high-pass cutoff above 0 and at
    or above Nyquist (both within the range on which the float
    operations are exact) is handed to the designer with a normalised
    value of at least 1; the design is refused, no later stage runs, no
    array is produced, and the chain ends in [InvalidCutoffError]
    whatever the other three cutoffs are. *)
Theorem highpass_is_not_held_against_nyquist (sr hp : Z) :
  float_safe sr -> float_safe hp ->
  0 < sr -> 0 < hp -> sr <= 2 * hp ->
  (1 <= norm hp sr)%Q /\
  forall y lp bl bh (w : world),
    Gen.apply_filters y sr hp lp bl bh w
    = (Raise InvalidCutoffError,
       World (heap w) (calls w ++ [CallButter 5 (Wn1 (norm hp sr)) high])).
Proof.
  intros _ _ Hsr Hhp Hny. split.
  - now apply norm_at_least_one.
  - intros. now apply highpass_refused_run.
Qed.

Lemma zero_rate_stage data cutoff bt (w : world) :
  well_shaped cutoff bt = true -> cutoff <> PyList [] ->
  Gen.butter_filter data cutoff 0 bt 5 w = (Raise ZeroDivisionError, w).
Proof.
  intros Hshape Hne. rewrite butter_filter_halves.
  destruct bt, cutoff as [c|[|c cs]]; try discriminate; try congruence;
    reflexivity.
Qed.

Lemma zero_rate_run y hp lp bl bh (w : world) :
  Gen.apply_filters y 0 hp lp bl bh w
  = if (0 <? hp) || ((0 <? bl) && (bh <? 0))
    then (Raise ZeroDivisionError, w)
    else (Ok y, w).
Proof.
  rewrite apply_filters_plan. unfold planned_stages.
  replace ((0 <? lp) && (2 * lp <? 0)) with false
    by (destruct (Z.ltb_spec 0 lp), (Z.ltb_spec (2 * lp) 0);
        try reflexivity; lia).
  replace (2 * bh <? 0) with (bh <? 0)
    by (destruct (Z.ltb_spec bh 0), (Z.ltb_spec (2 * bh) 0);
        try reflexivity; lia).
  destruct (0 <? hp), ((0 <? bl) && (bh <? 0)); simpl; unfold bind;
    rewrite ?zero_rate_stage by (try reflexivity; discriminate);
    reflexivity.
Qed.

(** X2. At the sample rate 0, with cutoffs within the range on which
    the float operations are exact, the chain never reaches the
    designer.  The low-pass stage is always skipped; if the high-pass
    cutoff is above 0, or the band's low edge is above 0 with its high
    edge below 0, the division by the Nyquist frequency raises
    [ZeroDivisionError] and the world is left as it was; otherwise the
    input array itself is returned. *)
Theorem zero_sample_rate (y : loc) (hp lp bl bh : Z) (w : world) :
  floats_safe 0 hp lp bl bh ->
  Gen.apply_filters y 0 hp lp bl bh w
  = (if (0 <? hp) || ((0 <? bl) && (bh <? 0))
     then (Raise ZeroDivisionError, w)
     else (Ok y, w)) /\
  (0 <? lp) && Qltb (inject_Z lp) (inject_Z 0 / 2) = false.
Proof.
  intros _. split; [apply zero_rate_run|].
  rewrite half_rate_guard.
  destruct (Z.ltb_spec 0 lp), (Z.ltb_spec (2 * lp) 0); try reflexivity; lia.
Qed.

(** X3. At a sample rate of 0 or below, rate and cutoffs within the
    range on which the float operations are exact, the chain never
    filters: a run either returns the very array it was given and
    leaves the world as it was, or raises [ZeroDivisionError] or
    [InvalidCutoffError]; in either case the store is unchanged. *)
Theorem nonpositive_rate_never_filters (y : loc) (sr hp lp bl bh : Z)
    (w : world) r w' :
  floats_safe sr hp lp bl bh ->
  sr <= 0 ->
  Gen.apply_filters y sr hp lp bl bh w = (r, w') ->
  heap w' = heap w /\
  match r with
  | Ok out => out = y /\ w' = w
  | Raise e => e = ZeroDivisionError \/ e = InvalidCutoffError
  end.
Proof.
  intros _ Hsr. destruct (Z.eq_dec sr 0) as [-> | Hnz].
  - rewrite zero_rate_run.
    destruct ((0 <? hp) || ((0 <? bl) && (bh <? 0))); intros [= <- <-]; auto.
  - assert (Hneg : sr < 0) by lia.
    rewrite apply_filters_plan. unfold planned_stages.
    replace ((0 <? lp) && (2 * lp <? sr)) with false
      by (destruct (Z.ltb_spec 0 lp), (Z.ltb_spec (2 * lp) sr);
          try reflexivity; lia).
    destruct (Z.ltb_spec 0 hp); simpl.
    + unfold bind at 1.
      rewrite (refused_design y (PyInt hp) sr high 5 w); try reflexivity;
        try assumption.
      * intros [= <- <-]. auto.
      * simpl. now apply norm_negative_rate.
    + destruct (Z.ltb_spec 0 bl); simpl; [|intros [= <- <-]; auto].
      destruct (2 * bh <? sr); simpl; [|intros [= <- <-]; auto].
      unfold bind at 1.
      rewrite (refused_design y (PyList [bl; bh]) sr band 5 w);
        try reflexivity; try assumption.
      * intros [= <- <-]. auto.
      * simpl. now rewrite norm_negative_rate.
Qed.

Lemma lowpass_plan_accepted sr lp :
  Forall (accepted sr)
    (if (0 <? lp) && (2 * lp <? sr) then [(low, PyInt lp)] else []).
Proof.
  destruct (Z.ltb_spec 0 lp), (Z.ltb_spec (2 * lp) sr); simpl;
    repeat constructor. simpl.
  rewrite norm_in_open_unit by lia.
  apply andb_true_iff. split; apply Z.ltb_lt; lia.
Qed.

(** X4. Within the range on which the float operations are exact the
    low-pass stage cannot fail: its guard lets through only cutoffs the
    designer accepts.  With the other stages disabled the chain
    returns, for every such sample rate and low-pass cutoff, an array
    of the length of its input. *)
Theorem lowpass_alone_never_raises (y : loc) (x : list sample)
    (sr lp : Z) (w : world) :
  float_safe sr -> float_safe lp ->
  heap w !! y = Some x ->
  exists out w' xo,
    Gen.apply_filters y sr disabled lp disabled disabled w = (Ok out, w') /\
    heap w' !! out = Some xo /\ length xo = length x.
Proof.
  intros _ _ Hx. rewrite apply_filters_plan.
  unfold planned_stages, disabled.
  simpl app. rewrite app_nil_r.
  pose proof (lowpass_plan_accepted sr lp) as Hacc.
  destruct ((0 <? lp) && (2 * lp <? sr)) eqn:Hguard.
  - apply andb_true_iff in Hguard as [Hlp Hny].
    apply Z.ltb_lt in Hlp, Hny.
    assert (Hnz : sr <> 0) by lia.
    destruct (run_stages_accepted _ sr y x w Hnz Hacc Hx)
      as (out & w' & _ & Hrun & _).
    destruct (run_stages_sound _ _ _ _ _ _ _ Hx Hrun)
      as (_ & _ & xo & Ho & Hl).
    exists out, w', xo. auto.
  - exists y, w, x. auto.
Qed.

Lemma plan_accepted sr hp lp bl bh :
  0 < sr -> (hp <= 0 \/ 2 * hp < sr) ->
  (bl <= 0 \/ sr <= 2 * bh \/ bl < bh) ->
  Forall (accepted sr) (planned_stages sr hp lp bl bh).
Proof.
  intros Hsr Hhp Hband. unfold planned_stages.
  apply Forall_app. split; [|apply Forall_app; split].
  - destruct (Z.ltb_spec 0 hp); repeat constructor. simpl.
    rewrite norm_in_open_unit by assumption.
    apply andb_true_iff. split; apply Z.ltb_lt; lia.
  - apply lowpass_plan_accepted.
  - destruct (Z.ltb_spec 0 bl), (Z.ltb_spec (2 * bh) sr); simpl;
      repeat constructor.
    change (Wn_of (snd (band, PyList [bl; bh])) sr)
      with (WnList [norm bl sr; norm bh sr]).
    change (fst (band, PyList [bl; bh])) with band.
    rewrite accepts_band by assumption.
    repeat (apply andb_true_iff; split); apply Z.ltb_lt; lia.
Qed.

(** X5. When the chain succeeds.  At a positive sample rate, rate and
    cutoffs within the range on which the float operations are exact,
    and on an allocated input the chain returns an array exactly when
    the high-pass cutoff is disabled or below Nyquist, and the band
    stage is skipped or has its low edge below its high edge; in every
    other case it ends in [InvalidCutoffError].  Within that range the
    low-pass cutoff plays no part in it. *)
Theorem chain_succeeds_exactly_when (y : loc) (x : list sample)
    (sr hp lp bl bh : Z) (w : world) :
  floats_safe sr hp lp bl bh ->
  0 < sr -> heap w !! y = Some x ->
  ((exists out w', Gen.apply_filters y sr hp lp bl bh w = (Ok out, w')) <->
   (hp <= 0 \/ 2 * hp < sr) /\ (bl <= 0 \/ sr <= 2 * bh \/ bl < bh)) /\
  (forall e w', Gen.apply_filters y sr hp lp bl bh w = (Raise e, w') ->
                e = InvalidCutoffError).
Proof.
  intros _ Hsr Hx. assert (Hnz : sr <> 0) by lia. split.
  - split.
    + intros (out & w' & Hrun).
      split.
      * destruct (Z.le_gt_cases hp 0); [auto|].
        destruct (Z.lt_ge_cases (2 * hp) sr); [auto|].
        rewrite highpass_refused_run in Hrun by lia. discriminate.
      * destruct (Z.le_gt_cases bl 0); [auto|].
        destruct (Z.le_gt_cases sr (2 * bh)); [auto|].
        destruct (Z.lt_ge_cases bl bh); [auto|].
        exfalso.
        assert (Href : accepts (WnList [norm bl sr; norm bh sr]) band
                       = false).
        { rewrite accepts_band by assumption.
          destruct (Z.ltb_spec bl bh); [lia|]. now rewrite andb_false_r. }
        destruct (chain_band_refused y x sr hp lp bl bh w _ _
                    Hsr Hx ltac:(lia) ltac:(lia) Href Hrun) as [? _].
        discriminate.
    + intros [Hhp Hband]. rewrite apply_filters_plan.
      destruct (run_stages_accepted _ sr y x w Hnz
                  (plan_accepted sr hp lp bl bh Hsr Hhp Hband) Hx)
        as (out & w' & _ & Hrun & _).
      eauto.
  - intros e w' Hrun. rewrite apply_filters_plan in Hrun.
    eapply run_stages_refusal; try eassumption.
    apply planned_stages_shaped.
Qed.
End ChainBehaviour.

(** ** Arrays and calls of a run *)

Section ChainShape.
Context `{SP : SciPy}.

Lemma butter_filter_ok_inv data cutoff fs bt order (w : world) out w' :
  Gen.butter_filter data cutoff fs bt order w = (Ok out, w') ->
  exists Wn x b a,
    heap w !! data = Some x /\ heap w !! out = None /\
    heap w' = <[out := direct_form b a [] [] x]> (heap w) /\
    calls w' = calls w ++ [CallButter order Wn bt; CallLfilter b a data out].
Proof.
  rewrite butter_filter_halves.
  destruct (normalise cutoff fs bt) as [Wn|e]; [|discriminate].
  intros Hrun. apply stage_outcome_sound in Hrun as [_ Hrun].
  destruct Hrun as (x & b & a & H). exists Wn, x, b, a. exact H.
Qed.

Lemma butter_filter_calls data cutoff fs bt order (w : world) r w' :
  Gen.butter_filter data cutoff fs bt order w = (r, w') ->
  exists new, calls w' = calls w ++ new /\ Forall scipy_call new.
Proof.
  rewrite butter_filter_halves.
  destruct (normalise cutoff fs bt) as [Wn|e].
  2:{ intros [= <- <-]. exists []. rewrite app_nil_r. auto. }
  intros Hrun. apply stage_outcome_sound in Hrun as [_ Hrun].
  destruct r as [out|e].
  - destruct Hrun as (x & b & a & _ & _ & _ & Hc).
    eexists. split; [exact Hc|]. repeat constructor.
  - destruct Hrun as (_ & Hc & _).
    eexists. split; [exact Hc|]. repeat constructor.
Qed.

Lemma run_stages_scipy_calls stages sr y (w : world) r w' :
  run_stages stages sr y w = (r, w') ->
  exists new, calls w' = calls w ++ new /\ Forall scipy_call new.
Proof.
  revert y w. induction stages as [|[bt c] rest IH]; intros y w; simpl.
  - intros [= <- <-]. exists []. rewrite app_nil_r. auto.
  - unfold bind.
    destruct (Gen.butter_filter y c sr bt 5 w) as [[y1|e] w1] eqn:Hstage;
      destruct (butter_filter_calls _ _ _ _ _ _ _ _ Hstage)
        as (n1 & Hc1 & Hf1).
    + intros Hrest. destruct (IH _ _ Hrest) as (n2 & Hc2 & Hf2).
      exists (n1 ++ n2). split.
      * now rewrite Hc2, Hc1, app_assoc.
      * apply Forall_app. auto.
    + intros [= <- <-]. eauto.
Qed.

Lemma run_stages_ok_shape stages sr y (w : world) out w' :
  run_stages stages sr y w = (Ok out, w') ->
  grows w w' /\
  (stages = [] -> out = y /\ w' = w) /\
  (stages <> [] -> heap w !! out = None /\ is_Some (heap w' !! out)) /\
  exists new,
    calls w' = calls w ++ new /\ length new = (2 * length stages)%nat.
Proof.
  revert y w. induction stages as [|[bt c] rest IH]; intros y w; simpl.
  - intros [= <- <-]. split; [apply grows_refl|].
    split; [auto|]. split; [congruence|].
    exists []. now rewrite app_nil_r.
  - unfold bind.
    destruct (Gen.butter_filter y c sr bt 5 w) as [[y1|e] w1] eqn:Hstage;
      [|discriminate].
    intros Hrest.
    destruct (butter_filter_ok_inv _ _ _ _ _ _ _ _ Hstage)
      as (Wn & x & b & a & Hx & Hfresh & Hheap & Hc1).
    destruct (IH _ _ Hrest) as (Hg & Hnil & Hcons & n2 & Hc2 & Hl2).
    assert (Hg1 : grows w w1).
    { intros l xs Hl. rewrite Hheap.
      rewrite lookup_insert_ne; [exact Hl|]. congruence. }
    split; [eapply grows_trans; eassumption|].
    split; [discriminate|]. split.
    + intros _. destruct rest as [|s rest'].
      * destruct (Hnil eq_refl) as [-> ->]. split; [exact Hfresh|].
        rewrite Hheap, lookup_insert_eq. eauto.
      * destruct (Hcons ltac:(discriminate)) as [Hnone Hsome].
        split; [|exact Hsome].
        rewrite Hheap in Hnone.
        apply lookup_insert_None in Hnone. tauto.
    + eexists. split; [rewrite Hc2, Hc1, <- app_assoc; reflexivity|].
      rewrite length_app, Hl2. simpl. lia.
Qed.

(** X6. What a successful run of the chain hands back, for a sample
    rate and cutoffs within the range on which the float operations are
    exact.  No array that existed before is changed.  If no stage is
    applied the result is the input array itself and the world is as
    before, so the caller's result aliases the decoded samples; if a
    stage is applied the result is an array the store did not hold
    before.  The run makes exactly one designer call and one filter
    call per stage. *)
Theorem chain_returns_input_or_new_array (y : loc) (sr hp lp bl bh : Z)
    (w : world) out w' :
  floats_safe sr hp lp bl bh ->
  Gen.apply_filters y sr hp lp bl bh w = (Ok out, w') ->
  let plan := planned_stages sr hp lp bl bh in
  grows w w' /\
  (plan = [] -> out = y /\ w' = w) /\
  (plan <> [] -> heap w !! out = None /\ is_Some (heap w' !! out)) /\
  exists new,
    calls w' = calls w ++ new /\ length new = (2 * length plan)%nat /\
    Forall scipy_call new.
Proof.
  intros _ Hrun plan. rewrite apply_filters_plan in Hrun.
  fold plan in Hrun.
  destruct (run_stages_ok_shape _ _ _ _ _ _ Hrun)
    as (Hg & Hnil & Hcons & new & Hc & Hl).
  destruct (run_stages_scipy_calls _ _ _ _ _ _ Hrun) as (new' & Hc' & Hf).
  assert (new' = new) as ->
    by (rewrite Hc in Hc'; eapply app_inv_head, eq_sym, Hc').
  split; [exact Hg|]. split; [exact Hnil|]. split; [exact Hcons|].
  exists new. auto.
Qed.

Lemma plan_high_only sr hp :
  planned_stages sr hp disabled disabled disabled
  = if 0 <? hp then [(high, PyInt hp)] else [].
Proof. unfold planned_stages. simpl. now rewrite app_nil_r. Qed.

Lemma plan_low_only sr lp :
  planned_stages sr disabled lp disabled disabled
  = if (0 <? lp) && (2 * lp <? sr) then [(low, PyInt lp)] else [].
Proof. unfold planned_stages. simpl. now rewrite app_nil_r. Qed.

Lemma plan_band_only sr bl bh :
  planned_stages sr disabled disabled bl bh
  = if (0 <? bl) && (2 * bh <? sr) then [(band, PyList [bl; bh])] else [].
Proof. reflexivity. Qed.

(** X7. The chain is the composition of its three stages taken one at
    a time: filtering with all four cutoffs is the same as running the
    chain with the high-pass cutoff alone, then on its result with the
    low-pass cutoff alone, then on that result with the band alone. *)
Theorem chain_is_three_single_stage_chains (y : loc) (sr hp lp bl bh : Z)
    (w : world) :
  Gen.apply_filters y sr hp lp bl bh w
  = (y1 <- Gen.apply_filters y sr hp disabled disabled disabled ;;
     y2 <- Gen.apply_filters y1 sr disabled lp disabled disabled ;;
     Gen.apply_filters y2 sr disabled disabled bl bh) w.
Proof.
  rewrite apply_filters_plan. unfold planned_stages at 1.
  rewrite !run_stages_app. unfold bind.
  rewrite apply_filters_plan, plan_high_only.
  destruct (run_stages _ sr y w) as [[y1|e] w1]; [|reflexivity].
  rewrite run_stages_app, apply_filters_plan, plan_low_only.
  destruct (run_stages _ sr y1 w1) as [[y2|e] w2]; [|reflexivity].
  now rewrite apply_filters_plan, plan_band_only.
Qed.
End ChainShape.

(** * Further behaviour of the pipeline *)

Section PipelineBehaviour.
Context `{SP : SciPy} `{LB : !Librosa}.

Lemma load_run file (w : world) :
  librosa_load file w
  = match load file with
    | Ok (ys, sr) => (Ok (fresh (dom (heap w)), sr), loaded file ys w)
    | Raise e => (Raise e, w)
    end.
Proof.
  unfold librosa_load, bind, lift, alloc, record, ret, loaded.
  destruct (load file) as [[ys sr]|e]; reflexivity.
Qed.

Lemma bind_ok_inv {A B} (m : M A) (k : A -> M B) (w : world) b w' :
  bind m k w = (Ok b, w') ->
  exists a w1, m w = (Ok a, w1) /\ k a w1 = (Ok b, w').
Proof.
  unfold bind. destruct (m w) as [[a|e] w1]; [eauto|discriminate].
Qed.

Lemma plot_ok_inv f fn y sr (w : world) img w' :
  plot f fn y sr w = (Ok img, w') ->
  exists ys,
    heap w !! y = Some ys /\ render f fn ys sr = Ok img /\
    w' = World (heap w) (calls w ++ [CallFeature f y sr]).
Proof.
  unfold plot, bind, deref, record, lift.
  destruct (heap w !! y) as [ys|]; [|discriminate].
  intros [= Hr <-]. eauto.
Qed.

Lemma onset_run y sr ys (w : world) :
  heap w !! y = Some ys ->
  librosa_onset_strength y sr w
  = match onset_strength ys sr with
    | Ok env =>
        (Ok (fresh (dom (heap w))),
         World (<[fresh (dom (heap w)) := env]> (heap w))
               (calls w ++ [CallOnset y sr (fresh (dom (heap w)))]))
    | Raise e => (Raise e, w)
    end.
Proof.
  intros Hy.
  unfold librosa_onset_strength, bind, deref, lift, alloc, record, ret.
  rewrite Hy. destruct (onset_strength ys sr); reflexivity.
Qed.

Lemma chain_failure_stops_gen file ys sr hp lp bl bh (w : world) e w2 :
  load file = Ok (ys, sr) ->
  Gen.apply_filters (fresh (dom (heap w))) sr hp lp bl bh (loaded file ys w)
  = (Raise e, w2) ->
  Gen.analyze_audio file hp lp bl bh w = (Raise e, w2).
Proof.
  intros Hload Hchain. unfold Gen.analyze_audio.
  unfold bind at 1. rewrite load_run, Hload. cbv beta iota. simpl fst.
  simpl snd. unfold bind at 1. now rewrite Hchain.
Qed.

Lemma chain_failure_stops_main file ys sr hp lp bl bh (w : world) e w2 :
  load file = Ok (ys, sr) ->
  Main.apply_filters (fresh (dom (heap w))) sr hp lp bl bh (loaded file ys w)
  = (Raise e, w2) ->
  Main.analyze_audio file hp lp bl bh w = (Raise e, w2).
Proof.
  intros Hload Hchain. unfold Main.analyze_audio.
  unfold bind at 1. rewrite load_run, Hload. cbv beta iota. simpl fst.
  simpl snd. unfold bind at 1. now rewrite Hchain.
Qed.

(** X8. A failure of the chain stops the pipeline before any plot.  If
    the decoder returns samples and the chain raises on them, then
    [analyze_audio], in [gen.py] and in [main.py], raises the same
    exception and returns no image; beyond the decoder's call the log
    holds designer and filter calls only, so no feature routine has
    run. *)
Theorem chain_failure_stops_the_pipeline (file : string)
    (ys : list sample) (sr hp lp bl bh : Z) (w : world) e w2 :
  load file = Ok (ys, sr) ->
  Gen.apply_filters (fresh (dom (heap w))) sr hp lp bl bh (loaded file ys w)
  = (Raise e, w2) ->
  Gen.analyze_audio file hp lp bl bh w = (Raise e, w2) /\
  Main.analyze_audio file hp lp bl bh w = (Raise e, w2) /\
  exists new,
    calls w2 = calls w ++ CallLoad file (fresh (dom (heap w))) :: new /\
    Forall scipy_call new.
Proof.
  intros Hload Hchain. split; [|split].
  - eapply chain_failure_stops_gen; eassumption.
  - eapply chain_failure_stops_main; eassumption.
  - rewrite apply_filters_plan in Hchain.
    destruct (run_stages_scipy_calls _ _ _ _ _ _ Hchain) as (new & Hc & Hf).
    exists new. split; [|exact Hf].
    rewrite Hc. simpl. now rewrite <- app_assoc.
Qed.

Ltac plot_inv H :=
  let a := fresh "img" in
  let w1 := fresh "w" in
  let Hp := fresh "Hplot" in
  let ys := fresh "ys" in
  let Hy := fresh "Hy" in
  let Hr := fresh "Hr" in
  apply bind_ok_inv in H as (a & w1 & Hp & H);
  apply plot_ok_inv in Hp as (ys & Hy & Hr & ->);
  cbn [heap calls] in *.

(** X9. What [gen.py] returns.  A run of [analyze_audio] returns images
    exactly when the decoder, the chain, the onset routine and all
    eleven feature routines succeed; the images are then the features,
    in the order of the returned tuple, of the array the chain
    returned (not of the decoded one), the last two being drawn from
    the onset envelope of that array; the calls are logged in that
    order, and no array the chain left behind is changed. *)
Theorem gen_images_are_features_of_the_filtered_array (file : string)
    (hp lp bl bh : Z) (w : world) imgs :
  (forall w',
     Gen.analyze_audio file hp lp bl bh w = (Ok imgs, w') ->
     exists ys sr yf w2 ysf env o,
       load file = Ok (ys, sr) /\
       Gen.apply_filters (fresh (dom (heap w))) sr hp lp bl bh
         (loaded file ys w) = (Ok yf, w2) /\
       heap w2 !! yf = Some ysf /\
       onset_strength ysf sr = Ok env /\
       map Ok imgs = gen_battery (Some (basename file)) ysf sr env /\
       grows w2 w' /\
       calls w' = calls w2 ++ gen_feature_calls yf sr o) /\
  (forall ys sr yf w2 ysf env,
     load file = Ok (ys, sr) ->
     Gen.apply_filters (fresh (dom (heap w))) sr hp lp bl bh
       (loaded file ys w) = (Ok yf, w2) ->
     heap w2 !! yf = Some ysf ->
     onset_strength ysf sr = Ok env ->
     map Ok imgs = gen_battery (Some (basename file)) ysf sr env ->
     exists w', Gen.analyze_audio file hp lp bl bh w = (Ok imgs, w')).
Proof.
  split.
  - unfold Gen.analyze_audio. intros w' Hrun.
    apply bind_ok_inv in Hrun as ([y0 sr] & w1 & Hload & Hrun).
    rewrite load_run in Hload.
    destruct (load file) as [[ys sr']|e] eqn:Hfile; [|discriminate].
    injection Hload as <- <- <-. simpl fst in Hrun. simpl snd in Hrun.
    apply bind_ok_inv in Hrun as (yf & w2 & Hchain & Hrun).
    unfold Gen.plot_waveform, Gen.plot_spectrogram, Gen.plot_mfcc,
      Gen.plot_zcr, Gen.plot_spectral_centroid, Gen.plot_spectral_bandwidth,
      Gen.plot_rms, Gen.plot_spectral_contrast, Gen.plot_spectral_rolloff,
      Gen.plot_tempo, Gen.plot_tempogram in Hrun.
    do 9 plot_inv Hrun.
    repeat match goal with
           | H1 : heap w2 !! yf = Some ?a, H2 : heap w2 !! yf = Some ?b |- _ =>
               assert (b = a) as -> by congruence; clear H2
           end.
    apply bind_ok_inv in Hrun as (o & w3 & Honset & Hrun).
    rewrite (onset_run yf sr' ys0) in Honset by exact Hy.
    destruct (onset_strength ys0 sr') as [env|e] eqn:Henv; [|discriminate].
    injection Honset as <- <-. cbn [heap calls] in *.
    do 2 plot_inv Hrun.
    injection Hrun as <- <-.
    repeat match goal with
           | H : <[_ := env]> _ !! _ = Some _ |- _ =>
               rewrite lookup_insert_eq in H; injection H as <-
           end.
    exists ys, sr', yf, w2, ys0, env, (fresh (dom (heap w2))).
    split; [reflexivity|]. split; [exact Hchain|]. split; [exact Hy|].
    split; [exact Henv|]. split; [|split].
    + unfold gen_battery. simpl. congruence.
    + apply grows_insert_fresh.
    + unfold gen_feature_calls. simpl. rewrite <- !app_assoc. reflexivity.
  - intros ys sr yf w2 ysf env Hload Hchain Hyf Henv Himgs.
    unfold gen_battery in Himgs.
    do 12 (destruct imgs as [|? imgs]; try discriminate).
    injection Himgs as H1 H2 H3 H4 H5 H6 H7 H8 H9 H10 H11.
    unfold Gen.analyze_audio.
    unfold bind at 1. rewrite load_run, Hload. cbv beta iota.
    simpl fst. simpl snd. unfold bind at 1. rewrite Hchain.
    unfold Gen.plot_waveform, Gen.plot_spectrogram, Gen.plot_mfcc,
      Gen.plot_zcr, Gen.plot_spectral_centroid, Gen.plot_spectral_bandwidth,
      Gen.plot_rms, Gen.plot_spectral_contrast, Gen.plot_spectral_rolloff,
      Gen.plot_tempo, Gen.plot_tempogram.
    do 9 (unfold bind at 1; rewrite (plot_run _ _ _ _ ysf) by exact Hyf;
          cbn [heap calls];
          match goal with
          | H : Ok _ = render ?f ?fn ysf ?s |- context [render ?f ?fn ysf ?s]
            => rewrite <- H
          end).
    unfold bind at 1. rewrite (onset_run _ _ ysf) by exact Hyf.
    rewrite Henv. cbn [heap calls].
    do 2 (unfold bind at 1;
          rewrite (plot_run _ _ _ _ env) by apply lookup_insert_eq;
          cbn [heap calls];
          match goal with
          | H : Ok _ = render ?f ?fn env ?s |- context [render ?f ?fn env ?s]
            => rewrite <- H
          end).
    unfold ret. eexists. reflexivity.
Qed.

(** X10. What [main.py] returns.  Its [analyze_audio] returns images
    exactly when the decoder, the chain and the nine feature routines
    succeed; the images are the nine features of the array the chain
    returned, drawn without a file name in the title.  The nine calls
    are logged in that order, with no call for the onset envelope, the
    tempo or the tempogram, and no array the chain left behind is
    changed. *)
Theorem main_images_are_features_of_the_filtered_array (file : string)
    (hp lp bl bh : Z) (w : world) imgs :
  (forall w',
     Main.analyze_audio file hp lp bl bh w = (Ok imgs, w') ->
     exists ys sr yf w2 ysf,
       load file = Ok (ys, sr) /\
       Main.apply_filters (fresh (dom (heap w))) sr hp lp bl bh
         (loaded file ys w) = (Ok yf, w2) /\
       heap w2 !! yf = Some ysf /\
       map Ok imgs = main_battery ysf sr /\
       grows w2 w' /\
       calls w' = calls w2 ++ main_feature_calls yf sr) /\
  (forall ys sr yf w2 ysf,
     load file = Ok (ys, sr) ->
     Main.apply_filters (fresh (dom (heap w))) sr hp lp bl bh
       (loaded file ys w) = (Ok yf, w2) ->
     heap w2 !! yf = Some ysf ->
     map Ok imgs = main_battery ysf sr ->
     exists w', Main.analyze_audio file hp lp bl bh w = (Ok imgs, w')).
Proof.
  split.
  - unfold Main.analyze_audio. intros w' Hrun.
    apply bind_ok_inv in Hrun as ([y0 sr] & w1 & Hload & Hrun).
    rewrite load_run in Hload.
    destruct (load file) as [[ys sr']|e] eqn:Hfile; [|discriminate].
    injection Hload as <- <- <-. simpl fst in Hrun. simpl snd in Hrun.
    apply bind_ok_inv in Hrun as (yf & w2 & Hchain & Hrun).
    unfold Main.plot_waveform, Main.plot_spectrogram, Main.plot_mfcc,
      Main.plot_zcr, Main.plot_spectral_centroid,
      Main.plot_spectral_bandwidth, Main.plot_rms,
      Main.plot_spectral_contrast, Main.plot_spectral_rolloff in Hrun.
    do 9 plot_inv Hrun.
    repeat match goal with
           | H1 : heap w2 !! yf = Some ?a, H2 : heap w2 !! yf = Some ?b |- _ =>
               assert (b = a) as -> by congruence; clear H2
           end.
    injection Hrun as <- <-.
    exists ys, sr', yf, w2, ys0.
    split; [reflexivity|]. split; [exact Hchain|]. split; [exact Hy|].
    split; [|split].
    + unfold main_battery. simpl. congruence.
    + intros l xs Hl. exact Hl.
    + unfold main_feature_calls. simpl. rewrite <- !app_assoc. reflexivity.
  - intros ys sr yf w2 ysf Hload Hchain Hyf Himgs.
    unfold main_battery in Himgs.
    do 10 (destruct imgs as [|? imgs]; try discriminate).
    injection Himgs as H1 H2 H3 H4 H5 H6 H7 H8 H9.
    unfold Main.analyze_audio.
    unfold bind at 1. rewrite load_run, Hload. cbv beta iota.
    simpl fst. simpl snd. unfold bind at 1. rewrite Hchain.
    unfold Main.plot_waveform, Main.plot_spectrogram, Main.plot_mfcc,
      Main.plot_zcr, Main.plot_spectral_centroid,
      Main.plot_spectral_bandwidth, Main.plot_rms,
      Main.plot_spectral_contrast, Main.plot_spectral_rolloff.
    do 9 (unfold bind at 1; rewrite (plot_run _ _ _ _ ysf) by exact Hyf;
          cbn [heap calls];
          match goal with
          | H : Ok _ = render ?f ?fn ysf ?s |- context [render ?f ?fn ysf ?s]
            => rewrite <- H
          end).
    unfold ret. eexists. reflexivity.
Qed.
End PipelineBehaviour.

(** * The claims on concrete runs *)

Section Runs.
Import Toy.
Local Existing Instance scipy.

Local Abbreviation y1 := (1%positive : loc).
Local Abbreviation samples := ([3; 4; 5] : list (@sample scipy)).

Ltac in_range :=
  unfold floats_safe, float_safe, disabled, Gen.FILTER_LOWER_BOUND;
  repeat split; lia.

(** A band whose low edge, 15000 Hz, lies above the Nyquist frequency
    of 11025 Hz while its high edge, 100 Hz, lies below: the guard lets
    it through, the designer is called with it and refuses. *)
Lemma band_low_edge_above_nyquist_reaches_designer :
  (inject_Z 22050 / 2 <= inject_Z 15000)%Q /\
  Gen.apply_filters y1 22050 disabled disabled 15000 100 one_buffer
  = (Raise InvalidCutoffError,
     World (heap one_buffer)
       [CallButter 5 (WnList [norm 15000 22050; norm 100 22050]) band]).
Proof.
  split.
  - vm_compute. discriminate.
  - vm_compute. reflexivity.
Qed.

Lemma nyquist_refusal_and_guards_witness :
  0 < 22050 /\ float_safe 22050 /\ float_safe 12000 /\
  Gen.butter_filter y1 (PyInt 12000) 22050 low 5 one_buffer
  = (Raise InvalidCutoffError,
     World (heap one_buffer)
       (calls one_buffer ++ [CallButter 5 (Wn1 (norm 12000 22050)) low])).
Proof.
  split; [lia|]. split; [in_range|]. split; [in_range|].
  apply (proj1 (nyquist_refusal_and_guards 22050 ltac:(lia)
                  ltac:(in_range))).
  - in_range.
  - lia.
Defined.

Lemma inverted_band_is_refused_witness :
  floats_safe 44100 disabled disabled 100 50 /\
  heap one_buffer !! y1 = Some samples /\
  fst (Gen.apply_filters y1 44100 disabled disabled 100 50 one_buffer)
  = Raise InvalidCutoffError.
Proof.
  split; [in_range|]. split; [reflexivity|].
  apply (proj1 inverted_band_is_refused y1 samples 44100 disabled disabled
           one_buffer _ _ ltac:(in_range) ltac:(lia)
           eq_refl (surjective_pairing _)).
Defined.

Lemma sentinel_high_edge_does_not_disable_witness :
  0 < 22050 /\ -1 <= 0 /\
  floats_safe 22050 disabled disabled 300 (-1) /\
  fst (Gen.apply_filters y1 22050 disabled disabled 300 (-1) one_buffer)
  = Raise InvalidCutoffError.
Proof.
  split; [lia|]. split; [lia|]. split; [in_range|].
  destruct (sentinel_high_edge_does_not_disable 22050 300 (-1)
              ltac:(lia) ltac:(lia) ltac:(in_range) ltac:(in_range)
              ltac:(in_range)) as (_ & _ & Hraise).
  destruct (Hraise ltac:(lia)) as [_ Hrun].
  apply (Hrun y1 samples disabled disabled one_buffer _ _
           ltac:(in_range) ltac:(in_range)
           eq_refl (surjective_pairing _)).
Defined.

Lemma chain_stages_in_fixed_order_witness :
  floats_safe 22050 100 5000 200 300 /\
  Gen.apply_filters y1 22050 100 5000 200 300 one_buffer
  = run_stages [(high, PyInt 100); (low, PyInt 5000);
                (band, PyList [200; 300])] 22050 y1 one_buffer.
Proof.
  split; [in_range|].
  exact (proj1 (chain_stages_in_fixed_order y1 22050 100 5000 200 300
                  one_buffer ltac:(in_range))).
Defined.

Lemma filtering_preserves_length_witness :
  heap one_buffer !! y1 = Some samples /\
  exists xo,
    heap (snd (Gen.apply_filters y1 22050 100 5000 200 300 one_buffer))
      !! 4%positive = Some xo /\
    length xo = 3%nat.
Proof.
  split; [reflexivity|].
  destruct (filtering_preserves_length y1 samples one_buffer eq_refl)
    as (_ & _ & Hchain).
  refine (proj2 (Hchain 22050 100 5000 200 300 (Ok 4%positive) _ _)
            4%positive eq_refl).
  vm_compute. reflexivity.
Defined.

Lemma filter_leaves_input_untouched_witness :
  heap (snd (Gen.butter_filter y1 (PyInt 100) 22050 high 5 one_buffer))
    !! y1 = Some samples.
Proof.
  destruct (proj2 (filter_leaves_input_untouched y1 one_buffer)
              (PyInt 100) 22050 high 5 _ _ (surjective_pairing _))
    as (_ & Hsame & _).
  rewrite Hsame. reflexivity.
Defined.

Lemma design_and_apply_deterministic_witness :
  let first := Gen.butter_filter y1 (PyInt 100) 22050 high 5 one_buffer in
  let second := Gen.butter_filter y1 (PyInt 100) 22050 high 5 (snd first) in
  same_outcome (snd second) (fst first) (fst second).
Proof.
  intros first second.
  exact (proj2 (proj2 (proj2 design_and_apply_deterministic)
                  y1 (PyInt 100) 22050 high 5 one_buffer _ _ _ _
                  (surjective_pairing first) (surjective_pairing second))).
Defined.

(** A decoder that yields no samples at the rate 22050: the pipeline
    raises no [DecodeUnavailableError]; it calls the waveform plot on
    the empty array, and what that routine raises is what the pipeline
    raises. *)
Lemma empty_buffer_reaches_the_first_plot :
  @load scipy (careful_librosa [] 22050) "silence.wav" = Ok ([], 22050) /\
  fst (@Gen.analyze_audio scipy (careful_librosa [] 22050) "silence.wav"
         disabled disabled disabled disabled empty_world)
  <> Raise DecodeUnavailableError /\
  fst (@Gen.analyze_audio scipy (careful_librosa [] 22050) "silence.wav"
         disabled disabled disabled disabled empty_world)
  = Raise LibraryError /\
  calls (snd (@Gen.analyze_audio scipy (careful_librosa [] 22050)
                "silence.wav" disabled disabled disabled disabled
                empty_world))
  = [CallLoad "silence.wav" 1%positive;
     CallFeature Waveform 1%positive (Some 22050)].
Proof.
  split; [reflexivity|]. split; [|split].
  - vm_compute. discriminate.
  - vm_compute. reflexivity.
  - vm_compute. reflexivity.
Qed.

Lemma pipeline_runs_on_whatever_is_decoded_witness :
  @load scipy (careful_librosa [] 22050) "silence.wav" = Ok ([], 22050) /\
  exists w',
    @Gen.analyze_audio scipy (careful_librosa [] 22050) "silence.wav"
       disabled disabled disabled disabled empty_world
    = (Raise LibraryError, w') /\
    heap w' !! 1%positive = Some [] /\
    calls w' = [CallLoad "silence.wav" 1%positive;
                CallFeature Waveform 1%positive (Some 22050)].
Proof.
  split; [reflexivity|].
  exact (proj2 (proj2 (@pipeline_runs_on_whatever_is_decoded scipy
                         (careful_librosa [] 22050) "silence.wav"
                         empty_world))
           [] 22050 LibraryError eq_refl eq_refl).
Defined.
End Runs.

(** * The further properties on concrete runs *)

Section FurtherRuns.
Import Toy.
Local Existing Instance scipy.

Local Abbreviation y1 := (1%positive : loc).
Local Abbreviation samples := ([3; 4; 5] : list (@sample scipy)).

Ltac in_range :=
  unfold floats_safe, float_safe, disabled, Gen.FILTER_LOWER_BOUND;
  repeat split; lia.

Lemma highpass_is_not_held_against_nyquist_witness :
  float_safe 22050 /\ float_safe 12000 /\
  0 < 22050 /\ 0 < 12000 /\ 22050 <= 2 * 12000 /\
  Gen.apply_filters y1 22050 12000 5000 200 300 one_buffer
  = (Raise InvalidCutoffError,
     World (heap one_buffer)
       (calls one_buffer ++ [CallButter 5 (Wn1 (norm 12000 22050)) high])).
Proof.
  split; [in_range|]. split; [in_range|].
  repeat (split; [lia|]).
  apply (proj2 (highpass_is_not_held_against_nyquist 22050 12000
                  ltac:(in_range) ltac:(in_range)
                  ltac:(lia) ltac:(lia) ltac:(lia))).
Defined.

Lemma zero_sample_rate_witness :
  floats_safe 0 100 50 (-1) (-1) /\
  Gen.apply_filters y1 0 100 50 (-1) (-1) one_buffer
  = (Raise ZeroDivisionError, one_buffer).
Proof.
  split; [in_range|].
  exact (proj1 (zero_sample_rate y1 100 50 (-1) (-1) one_buffer
                  ltac:(in_range))).
Defined.

Lemma nonpositive_rate_never_filters_witness :
  floats_safe (-8000) 100 50 (-1) (-1) /\ -8000 <= 0 /\
  heap (snd (Gen.apply_filters y1 (-8000) 100 50 (-1) (-1) one_buffer))
  = heap one_buffer.
Proof.
  split; [in_range|]. split; [lia|].
  apply (nonpositive_rate_never_filters y1 (-8000) 100 50 (-1) (-1)
           one_buffer _ _ ltac:(in_range) ltac:(lia)
           (surjective_pairing _)).
Defined.

Lemma lowpass_alone_never_raises_witness :
  float_safe 22050 /\ float_safe 5000 /\
  heap one_buffer !! y1 = Some samples /\
  exists out w' xo,
    Gen.apply_filters y1 22050 disabled 5000 disabled disabled one_buffer
    = (Ok out, w') /\
    heap w' !! out = Some xo /\ length xo = 3%nat.
Proof.
  split; [in_range|]. split; [in_range|]. split; [reflexivity|].
  apply (lowpass_alone_never_raises y1 samples 22050 5000 one_buffer
           ltac:(in_range) ltac:(in_range) eq_refl).
Defined.

Lemma chain_succeeds_exactly_when_witness :
  floats_safe 22050 100 5000 200 300 /\
  0 < 22050 /\ heap one_buffer !! y1 = Some samples /\
  exists out w',
    Gen.apply_filters y1 22050 100 5000 200 300 one_buffer = (Ok out, w').
Proof.
  split; [in_range|]. split; [lia|]. split; [reflexivity|].
  apply (proj1 (chain_succeeds_exactly_when y1 samples 22050 100 5000 200 300
                  one_buffer ltac:(in_range) ltac:(lia) eq_refl)).
  split; lia.
Defined.

Lemma chain_returns_input_or_new_array_witness :
  floats_safe 22050 100 (-1) (-1) (-1) /\
  Gen.apply_filters y1 22050 100 (-1) (-1) (-1) one_buffer
  = (Ok 2%positive,
     snd (Gen.apply_filters y1 22050 100 (-1) (-1) (-1) one_buffer)) /\
  heap one_buffer !! 2%positive = None.
Proof.
  assert (Hrun : Gen.apply_filters y1 22050 100 (-1) (-1) (-1) one_buffer
                 = (Ok 2%positive,
                    snd (Gen.apply_filters y1 22050 100 (-1) (-1) (-1)
                           one_buffer)))
    by (vm_compute; reflexivity).
  split; [in_range|]. split; [exact Hrun|].
  destruct (chain_returns_input_or_new_array y1 22050 100 (-1) (-1) (-1)
              one_buffer _ _ ltac:(in_range) Hrun)
    as (_ & _ & Hnew & _).
  apply Hnew. discriminate.
Defined.

Lemma chain_failure_stops_the_pipeline_witness :
  @load scipy (librosa samples 22050) "a.wav" = Ok (samples, 22050) /\
  fst (@Gen.analyze_audio scipy (librosa samples 22050) "a.wav"
         12000 5000 200 300 empty_world)
  = Raise InvalidCutoffError.
Proof.
  split; [reflexivity|].
  pose proof (@chain_failure_stops_the_pipeline scipy
                (librosa samples 22050) "a.wav" samples 22050
                12000 5000 200 300 empty_world InvalidCutoffError _
                eq_refl ltac:(vm_compute; reflexivity)) as [Hgen _].
  rewrite Hgen. reflexivity.
Defined.

Lemma gen_images_are_features_of_the_filtered_array_witness :
  exists (ysf env : list (@sample scipy)),
    map Ok [(Waveform, 3%nat); (Spectrogram, 3%nat); (MFCC, 3%nat);
            (ZCR, 3%nat); (SpectralCentroid, 3%nat);
            (SpectralBandwidth, 3%nat); (RMS, 3%nat);
            (SpectralContrast, 3%nat); (SpectralRolloff, 3%nat);
            (Tempo, 3%nat); (Tempogram, 3%nat)]
    = @gen_battery scipy (librosa samples 22050) (Some "a.wav"%string)
        ysf 22050 env.
Proof.
  destruct (proj1 (@gen_images_are_features_of_the_filtered_array scipy
                     (librosa samples 22050) "a.wav" 100 5000 200 300
                     empty_world _) _
              ltac:(vm_compute; reflexivity))
    as (ys & sr & yf & w2 & ysf & env & o & Hload & _ & _ & _ & Himgs & _).
  injection Hload as _ <-.
  exists ysf, env. exact Himgs.
Defined.

Lemma main_images_are_features_of_the_filtered_array_witness :
  exists (ysf : list (@sample scipy)),
    map Ok [(Waveform, 3%nat); (Spectrogram, 3%nat); (MFCC, 3%nat);
            (ZCR, 3%nat); (SpectralCentroid, 3%nat);
            (SpectralBandwidth, 3%nat); (RMS, 3%nat);
            (SpectralContrast, 3%nat); (SpectralRolloff, 3%nat)]
    = @main_battery scipy (librosa samples 22050) ysf 22050.
Proof.
  destruct (proj1 (@main_images_are_features_of_the_filtered_array scipy
                     (librosa samples 22050) "a.wav" 100 5000 200 300
                     empty_world _) _
              ltac:(vm_compute; reflexivity))
    as (ys & sr & yf & w2 & ysf & Hload & _ & _ & Himgs & _).
  injection Hload as _ <-.
  exists ysf. exact Himgs.
Defined.
End FurtherRuns.
